(** * File intake pipeline of the file-upload library

    A shallow embedding of the two intake paths of the repository:

    - the [useFileUpload] hook ([src/hooks/use-file-upload.ts]):
      [validateFile], [createFilePreview], [handleFiles], [removeFile],
      [clearFiles] and the synthetic progress timer;
    - the multi-file branch of the [FileUploader] component:
      [handleMultipleFiles] and [removeFile].

    JavaScript strings are sequences of UTF-16 code units, numbers that count
    files or bytes are natural numbers, React state is passed explicitly, and
    everything the platform decides (random identifiers, the order in which
    promises settle, whether a blob can be read) is an explicit input. *)

From Stdlib Require Import String Ascii DecimalString.
From stdpp Require Import base numbers option list.

Local Open Scope N_scope.

(* ================================================================== *)
(** ** JavaScript strings *)
(* ================================================================== *)

Module Js.

(** A string is its sequence of UTF-16 code units. *)
Definition str := list N.

(** A literal of the source, written as a Rocq string. *)
Definition lit (s : string) : str :=
  map N_of_ascii (list_ascii_of_string s).

Definition eqb (a b : str) : bool := bool_decide (a = b).

(** [s.startsWith(p)] *)
Fixpoint startsWith (s p : str) {struct p} : bool :=
  match p, s with
  | [], _ => true
  | _ :: _, [] => false
  | c :: p', d :: s' => (c =? d) && startsWith s' p'
  end.

(** [s.endsWith(p)] *)
Definition endsWith (s p : str) : bool :=
  startsWith (reverse s) (reverse p).

(** [s.replace(pat, "")] with a string pattern: the first occurrence of
    [pat] is deleted, the rest of [s] is kept. *)
Fixpoint replaceFirst (pat s : str) : str :=
  if startsWith s pat then drop (length pat) s
  else match s with
       | [] => []
       | c :: s' => c :: replaceFirst pat s'
       end.

(** [s.split(sep)] for a separator of one code unit. *)
Fixpoint split (sep : N) (s : str) : list str :=
  match s with
  | [] => [[]]
  | c :: s' =>
      if c =? sep then [] :: split sep s'
      else match split sep s' with
           | h :: t => (c :: h) :: t
           | [] => [[c]]
           end
  end.

(** White space and line terminators of ECMAScript, as code units. *)
Definition isWhiteSpace (c : N) : bool :=
  ((9 <=? c) && (c <=? 13)) || (c =? 32) || (c =? 160) || (c =? 5760)
  || ((8192 <=? c) && (c <=? 8202)) || (c =? 8232) || (c =? 8233)
  || (c =? 8239) || (c =? 8287) || (c =? 12288) || (c =? 65279).

Fixpoint trimStart (s : str) : str :=
  match s with
  | [] => []
  | c :: s' => if isWhiteSpace c then trimStart s' else s
  end.

(** [s.trim()] *)
Definition trim (s : str) : str :=
  reverse (trimStart (reverse (trimStart s))).

(** [s.toLowerCase()] on the Basic Latin and Latin-1 letters; code units
    outside these two blocks are left as they are. *)
Definition lowerUnit (c : N) : N :=
  if ((65 <=? c) && (c <=? 90))
     || ((192 <=? c) && (c <=? 222) && negb (c =? 215))
  then c + 32 else c.

Definition toLowerCase (s : str) : str := map lowerUnit s.

(** Decimal rendering of a number inside a template literal. *)
Definition ofNat (n : nat) : str :=
  lit (DecimalString.NilZero.string_of_uint (Nat.to_uint n)).

Definition ofN (n : N) : str :=
  lit (DecimalString.NilZero.string_of_uint (N.to_uint n)).

(** *** Base64, the encoding behind [btoa] and [readAsDataURL] *)

Definition alphabet : str :=
  lit "ABCDEFGHIJKLMNOPQRSTUVWXYZabcdefghijklmnopqrstuvwxyz0123456789+/".

Definition sextet (i : N) : N := nth (N.to_nat i) alphabet 61.

Definition pad : N := 61.

Fixpoint base64 (bytes : list N) : str :=
  match bytes with
  | [] => []
  | [a] =>
      [sextet (a / 4); sextet ((a mod 4) * 16); pad; pad]
  | [a; b] =>
      [sextet (a / 4); sextet ((a mod 4) * 16 + b / 16);
       sextet ((b mod 16) * 4); pad]
  | a :: b :: c :: rest =>
      sextet (a / 4) :: sextet ((a mod 4) * 16 + b / 16)
      :: sextet ((b mod 16) * 4 + c / 64) :: sextet (c mod 64)
      :: base64 rest
  end.

(** [btoa(s)]: every code unit must be a Latin-1 byte, otherwise the call
    throws [InvalidCharacterError]. *)
Definition btoa (s : str) : option str :=
  if forallb (fun c => c <=? 255) s then Some (base64 s) else None.

End Js.

(* ================================================================== *)
(** ** What the platform provides *)
(* ================================================================== *)

(** A [File] of the DOM: the attributes the code reads, and the bytes a
    [FileReader] obtains from it ([None] when the read ends in an error
    event instead of a load event). *)
Module File.
Record t := mk {
  name : Js.str;
  size : N;
  type : Js.str;
  content : option (list N);
}.
End File.

(** A value that is thrown or that rejects a promise. *)
Inductive Thrown :=
| ErrorObject (message : Js.str)   (* [instanceof Error] holds *)
| OtherValue.

(** The [DOMException] of [btoa], told by its name; the text of its message
    depends on the platform and is not read by the code. *)
Definition invalidCharacterError : Thrown :=
  ErrorObject (Js.lit "InvalidCharacterError").

(** How a promise ends. *)
Inductive Outcome (A : Type) :=
| Resolves (v : A)
| Rejects (e : Thrown)
| NeverSettles.
Arguments Resolves {A} v.
Arguments Rejects {A} e.
Arguments NeverSettles {A}.

Module Promise.

(** [Promise.all(ps)]: one result slot per input promise.  [order] lists
    the indices of the promises in the order in which they settle.  A
    fulfilment writes its value into the slot of its index, the first
    rejection rejects the whole. *)
Record AllState (A : Type) := mkAll {
  slots : list (option A);
  rejected : option Thrown;
}.
Arguments mkAll {A} slots rejected.
Arguments slots {A} a.
Arguments rejected {A} a.

Definition settle {A} (ps : list (Outcome A)) (s : AllState A) (i : nat)
  : AllState A :=
  match ps !! i with
  | Some (Resolves v) => mkAll (<[i := Some v]> (slots s)) (rejected s)
  | Some (Rejects e) =>
      mkAll (slots s) (match rejected s with Some e0 => Some e0 | None => Some e end)
  | _ => s
  end.

Definition run {A} (ps : list (Outcome A)) (order : list nat) : AllState A :=
  foldl (settle ps) (mkAll (replicate (length ps) None) None) order.

Fixpoint values {A} (sl : list (option A)) : option (list A) :=
  match sl with
  | [] => Some []
  | Some v :: sl' => option_map (cons v) (values sl')
  | None :: _ => None
  end.

Definition all {A} (ps : list (Outcome A)) (order : list nat)
  : Outcome (list A) :=
  let s := run ps order in
  match rejected s with
  | Some e => Rejects e
  | None => match values (slots s) with
            | Some vs => Resolves vs
            | None => NeverSettles
            end
  end.

End Promise.

(** The four rejection reasons of the specification, attached to the
    messages of the code as a tag. *)
Inductive Reason :=
| SizeTooLarge
| SizeTooSmall
| CapacityExceeded
| UnsupportedType.

(* ================================================================== *)
(** ** The hook [useFileUpload] *)
(* ================================================================== *)

Module Hook.

Record FileWithPreview := mkFileWithPreview {
  id : Js.str;
  file : File.t;
  preview : Js.str;
}.

(** The destructured options; a callback is present or absent. *)
Record UseFileUploadOptions := mkOptions {
  accept : Js.str;
  multiple : bool;
  maxFiles : nat;
  maxSize : N;
  minSize : N;
  onFilesSelected : bool;
  onUpload : bool;
  onError : bool;
}.

(** The defaults of the destructuring, with no callback. *)
Definition defaultOptions : UseFileUploadOptions :=
  mkOptions (Js.lit "*/*") false 10 (10 * 1024 * 1024) 0 false false false.

(** Calls made to the callbacks of the caller, oldest first. *)
Inductive Call :=
| OnError (error : Js.str)
| OnFilesSelected (fs : list File.t)
| OnUpload (fs : list File.t).

Record State := mkState {
  files : list FileWithPreview;
  isUploading : bool;
  uploadProgress : nat;
  intervals : list nat;     (* identifiers of the live [setInterval] timers *)
  timeouts : nat;           (* pending 500 ms [setTimeout] callbacks *)
  nextTimer : nat;
  calls : list Call;
}.

Definition initial : State := mkState [] false 0 [] 0 0 [].

(** What one call of [handleFiles] takes from the platform: the random
    identifier drawn for the k-th preview, and the order in which the
    preview promises settle. *)
Record Env := mkEnv {
  randomId : nat -> Js.str;
  order : list nat;
}.

(** How a call of the async [handleFiles] stands once it cannot advance
    without the caller's upload action. *)
Inductive Status :=
| Returned
| Threw (e : Thrown)
| Hung
| AwaitingUpload (interval : nat).

(** [readAsDataURL] of a blob with a declared type. *)
Definition dataURL (type : Js.str) (bytes : list N) : Js.str :=
  Js.lit "data:" ++ type ++ Js.lit ";base64," ++ Js.base64 bytes.

(** [createFilePreview], with the identifier it draws as an argument.
    The image branch resolves from [reader.onload] only; the other
    branch runs [btoa] inside the promise executor, where a throw
    rejects the promise. *)
Definition createFilePreview (newId : Js.str) (f : File.t)
  : Outcome FileWithPreview :=
  if Js.startsWith (File.type f) (Js.lit "image/")
  then match File.content f with
       | Some bytes =>
           Resolves (mkFileWithPreview newId f (dataURL (File.type f) bytes))
       | None => NeverSettles
       end
  else match Js.btoa (File.name f) with
       | Some b =>
           Resolves (mkFileWithPreview newId f
                       (Js.lit "data:text/plain;base64," ++ b))
       | None => Rejects invalidCharacterError
       end.

Section WithFormat.

(** [formatFileSize] renders a byte count through floating-point
    logarithms and [toFixed]; only its result type matters here. *)
Variable formatFileSize : N -> Js.str.

Definition tooLargeMessage (o : UseFileUploadOptions) (f : File.t) : Js.str :=
  Js.lit "File " ++ File.name f ++ Js.lit " is too large. Maximum size is "
  ++ formatFileSize (maxSize o).

Definition tooSmallMessage (o : UseFileUploadOptions) (f : File.t) : Js.str :=
  Js.lit "File " ++ File.name f ++ Js.lit " is too small. Minimum size is "
  ++ formatFileSize (minSize o).

Definition unsupportedMessage (o : UseFileUploadOptions) (f : File.t) : Js.str :=
  Js.lit "File " ++ File.name f
  ++ Js.lit " has an unsupported type. Allowed types: " ++ accept o.

(** The callback of [acceptedTypes.some]. *)
Definition matchesType (f : File.t) (type : Js.str) : bool :=
  if Js.endsWith type (Js.lit "/*")
  then Js.startsWith (File.type f) (Js.replaceFirst (Js.lit "/*") type)
  else Js.eqb (File.type f) type.

(** [validateFile]: [None] is the source's [null]. *)
Definition validateFile (o : UseFileUploadOptions) (f : File.t)
  : option (Reason * Js.str) :=
  if negb (maxSize o =? 0) && (maxSize o <? File.size f)
  then Some (SizeTooLarge, tooLargeMessage o f)
  else if negb (minSize o =? 0) && (File.size f <? minSize o)
  then Some (SizeTooSmall, tooSmallMessage o f)
  else if negb (Js.eqb (accept o) (Js.lit "*/*"))
  then
    let acceptedTypes := map Js.trim (Js.split 44 (accept o)) in
    let isValidType := existsb (matchesType f) acceptedTypes in
    if negb isValidType
    then Some (UnsupportedType, unsupportedMessage o f)
    else None
  else None.

(** State setters of React, and the callbacks of the caller. *)
Definition setFiles (fs : list FileWithPreview) (st : State) : State :=
  mkState fs (isUploading st) (uploadProgress st) (intervals st)
          (timeouts st) (nextTimer st) (calls st).

Definition setIsUploading (b : bool) (st : State) : State :=
  mkState (files st) b (uploadProgress st) (intervals st)
          (timeouts st) (nextTimer st) (calls st).

Definition setUploadProgress (p : nat) (st : State) : State :=
  mkState (files st) (isUploading st) p (intervals st)
          (timeouts st) (nextTimer st) (calls st).

Definition call (present : bool) (c : Call) (st : State) : State :=
  mkState (files st) (isUploading st) (uploadProgress st) (intervals st)
          (timeouts st) (nextTimer st)
          (if present then calls st ++ [c] else calls st).

Definition setInterval (st : State) : State :=
  mkState (files st) (isUploading st) (uploadProgress st)
          (nextTimer st :: intervals st) (timeouts st) (S (nextTimer st))
          (calls st).

Definition clearInterval (interval : nat) (st : State) : State :=
  mkState (files st) (isUploading st) (uploadProgress st)
          (filter (fun i => i <> interval) (intervals st))
          (timeouts st) (nextTimer st) (calls st).

Definition setTimeout (st : State) : State :=
  mkState (files st) (isUploading st) (uploadProgress st) (intervals st)
          (S (timeouts st)) (nextTimer st) (calls st).

(** The body of [fileArray.forEach]: [validFiles] and [errors] grow at
    their ends; [onError] is called for every error. *)
Definition visit (o : UseFileUploadOptions)
  (acc : list File.t * list Js.str * State) (f : File.t)
  : list File.t * list Js.str * State :=
  let '(validFiles, errors, st) := acc in
  match validateFile o f with
  | Some (_, error) =>
      (validFiles, errors ++ [error], call (onError o) (OnError error) st)
  | None => (validFiles ++ [f], errors, st)
  end.

(** [handleFiles], up to the point where it waits for the upload action.
    [files] is the collection the closure of this render holds. *)
Definition handleFiles (o : UseFileUploadOptions) (env : Env)
  (files : list FileWithPreview) (selectedFiles : list File.t) (st : State)
  : State * Status :=
  let '(validFiles, errors, st) := foldl (visit o) ([], [], st) selectedFiles in
  if (0 <? length validFiles)%nat then
    match Promise.all
            (imap (fun k f => createFilePreview (randomId env k) f) validFiles)
            (order env) with
    | Rejects e => (st, Threw e)
    | NeverSettles => (st, Hung)
    | Resolves filesWithPreviews =>
        let newFiles :=
          if multiple o then files ++ filesWithPreviews else filesWithPreviews in
        let finalFiles := take (maxFiles o) newFiles in
        let st := setFiles finalFiles st in
        let st := call (onFilesSelected o) (OnFilesSelected (map file finalFiles)) st in
        if onUpload o then
          let st := setIsUploading true st in
          let st := setUploadProgress 0 st in
          let interval := nextTimer st in
          let st := setInterval st in
          let st := call true (OnUpload (map file finalFiles)) st in
          (st, AwaitingUpload interval)
        else (st, Returned)
    end
  else (st, Returned).

(** One firing of the 200 ms interval started by [handleFiles]. *)
Definition intervalFires (interval : nat) (st : State) : State :=
  if bool_decide (interval ∈ intervals st) then
    if (90 <=? uploadProgress st)%nat
    then setUploadProgress 90 (clearInterval interval st)
    else setUploadProgress (uploadProgress st + 10) st
  else st.

(** The rest of the [try] block, once the upload action has resolved;
    [handleFiles] then returns. *)
Definition uploadResolved (interval : nat) (st : State) : State * Status :=
  (setTimeout (setUploadProgress 100 (clearInterval interval st)), Returned).

(** The 500 ms callback scheduled after a successful upload. *)
Definition timeoutFires (st : State) : State :=
  match timeouts st with
  | O => st
  | S n =>
      let st := setUploadProgress 0 (setIsUploading false st) in
      mkState (files st) (isUploading st) (uploadProgress st) (intervals st)
              n (nextTimer st) (calls st)
  end.

(** The [catch] block, once the upload action has rejected with [e] (or
    thrown it); [handleFiles] then returns.  The interval started in the
    [try] block is out of scope here and is not cleared. *)
Definition uploadRejected (o : UseFileUploadOptions) (e : Thrown) (st : State)
  : State * Status :=
  let st := setIsUploading false st in
  let st := setUploadProgress 0 st in
  let st := call (onError o)
                 (OnError (match e with
                           | ErrorObject message => message
                           | OtherValue => Js.lit "Upload failed"
                           end)) st in
  (st, Returned).

Definition removeFile (fileId : Js.str) (st : State) : State :=
  setFiles (filter (fun f => id f <> fileId) (files st)) st.

Definition clearFiles (st : State) : State :=
  setUploadProgress 0 (setIsUploading false (setFiles [] st)).

(** Everything that can happen to a mounted hook.  A selection is handled
    by the [handleFiles] of the current render, whose closure holds the
    current collection, and is one step: the previews of its batch settle
    before the next event. *)
Inductive Event :=
| Select (env : Env) (selectedFiles : list File.t)
| RemoveFile (fileId : Js.str)
| ClearFiles
| IntervalFires (interval : nat)
| UploadResolves (interval : nat)
| UploadRejects (e : Thrown)
| TimeoutFires.

Definition step (o : UseFileUploadOptions) (st : State) (ev : Event) : State :=
  match ev with
  | Select env selectedFiles => (handleFiles o env (files st) selectedFiles st).1
  | RemoveFile fileId => removeFile fileId st
  | ClearFiles => clearFiles st
  | IntervalFires interval => intervalFires interval st
  | UploadResolves interval => (uploadResolved interval st).1
  | UploadRejects e => (uploadRejected o e st).1
  | TimeoutFires => timeoutFires st
  end.

Definition run (o : UseFileUploadOptions) (evs : list Event) (st : State) : State :=
  foldl (step o) st evs.

End WithFormat.

End Hook.

(* ================================================================== *)
(** ** The multi-file branch of the [FileUploader] component *)
(* ================================================================== *)

Module Component.

Inductive Variant :=
| Button
| DragAndDrop
| PreviewLayout
| ImageOnly
| MultiFile.

(** The fields of [FileUploaderConfig] the intake reads; [None] is a
    property the caller left out. *)
Record FileUploaderConfig := mkConfig {
  defaultVariant : option Variant;
  maxFileSizeMB : option N;
  acceptedFileTypes : option Js.str;
  maxFiles : option nat;
}.

(** [{ ...defaultConfig, ...config }] *)
Record MergedConfig := mkMerged {
  m_defaultVariant : Variant;
  m_maxFileSizeMB : N;
  m_acceptedFileTypes : Js.str;
  m_maxFiles : nat;
}.

Definition mergedConfig (config : FileUploaderConfig) : MergedConfig :=
  mkMerged (default PreviewLayout (defaultVariant config))
           (default 10 (maxFileSizeMB config))
           (default (Js.lit "image/*") (acceptedFileTypes config))
           (default 6%nat (maxFiles config)).

Record FileItem := mkFileItem {
  id : Js.str;
  file : File.t;
  preview : Js.str;
  name : Js.str;
  size : N;
  type : Js.str;
}.

Record State := mkState {
  files : list FileItem;
  errors : list Js.str;
  revoked : list Js.str;   (* arguments of [URL.revokeObjectURL], oldest first *)
}.

Definition initial : State := mkState [] [] [].

(** What the platform decides for the k-th candidate of a batch: the text
    of [Date.now()] and [Math.random()] in its identifier, and the object
    URL created for it. *)
Record Env := mkEnv {
  stamp : nat -> Js.str;
  createObjectURL : nat -> Js.str;
}.

(** [x || d] on a count and on a size. *)
Definition orElse (x d : nat) : nat := if (x =? 0)%nat then d else x.

Definition orElseN (x d : N) : N := if x =? 0 then d else x.

Definition effectiveMaxFiles (m : MergedConfig) : nat := orElse (m_maxFiles m) 6.

Definition effectiveMaxSize (m : MergedConfig) : N :=
  orElseN (m_maxFileSizeMB m) 10 * 1024 * 1024.

Definition exceedsMessage (m : MergedConfig) (f : File.t) : Js.str :=
  File.name f ++ Js.lit " exceeds " ++ Js.ofN (m_maxFileSizeMB m) ++ Js.lit "MB".

Definition maximumMessage (m : MergedConfig) : Js.str :=
  Js.lit "Maximum " ++ Js.ofNat (effectiveMaxFiles m) ++ Js.lit " files allowed".

Definition notAcceptedMessage (f : File.t) : Js.str :=
  File.name f ++ Js.lit " is not an accepted file type".

(** The callback of [acceptedTypes.some]. *)
Definition matchesType (f : File.t) (type : Js.str) : bool :=
  if Js.endsWith type (Js.lit "/*")
  then Js.startsWith (File.type f) (Js.replaceFirst (Js.lit "/*") type)
  else Js.eqb (File.type f) type
       || Js.endsWith (Js.toLowerCase (File.name f))
                      (Js.replaceFirst (Js.lit ".") type).

Definition isAccepted (m : MergedConfig) (f : File.t) : bool :=
  let acceptedTypes := map Js.trim (Js.split 44 (m_acceptedFileTypes m)) in
  existsb (matchesType f) acceptedTypes.

(** The three early returns of the [forEach] callback: the message pushed
    for [f] when [count] files are already held or accepted, [None] when no
    check fires. *)
Definition reject (m : MergedConfig) (count : nat) (f : File.t)
  : option (Reason * Js.str) :=
  if effectiveMaxSize m <? File.size f
  then Some (SizeTooLarge, exceedsMessage m f)
  else if (effectiveMaxFiles m <=? count)%nat
  then Some (CapacityExceeded, maximumMessage m)
  else if negb (bool_decide (m_acceptedFileTypes m = []))
          && negb (Js.eqb (m_acceptedFileTypes m) (Js.lit "*/*"))
          && negb (isAccepted m f)
  then Some (UnsupportedType, notAcceptedMessage f)
  else None.

Definition fileItem (env : Env) (k : nat) (f : File.t) : FileItem :=
  mkFileItem (File.name f ++ Js.lit "-" ++ stamp env k)
             f (createObjectURL env k)
             (File.name f) (File.size f) (File.type f).

(** The body of [newFiles.forEach] for the candidate at index [k];
    [files] is the collection the closure of the render holds. *)
Definition visit (m : MergedConfig) (env : Env) (files : list FileItem)
  (acc : list FileItem * list Js.str) (kf : nat * File.t)
  : list FileItem * list Js.str :=
  let '(validFiles, newErrors) := acc in
  let '(k, f) := kf in
  match reject m (length files + length validFiles) f with
  | Some (_, message) => (validFiles, newErrors ++ [message])
  | None => (validFiles ++ [fileItem env k f], newErrors)
  end.

Definition forEach (m : MergedConfig) (env : Env) (files : list FileItem)
  (newFiles : list File.t) : list FileItem * list Js.str :=
  foldl (visit m env files) ([], []) (imap pair newFiles).

(** [handleMultipleFiles]: the checks read the collection [files] of the
    closure, the update appends to the collection React holds. *)
Definition handleMultipleFiles (m : MergedConfig) (env : Env)
  (files : list FileItem) (newFiles : list File.t) (st : State) : State :=
  let '(validFiles, newErrors) := forEach m env files newFiles in
  mkState (Component.files st ++ validFiles) newErrors (revoked st).

Definition removeFile (fileId : Js.str) (st : State) : State :=
  let prev := files st in
  let fileToRemove := List.find (fun f => Js.eqb (id f) fileId) prev in
  mkState (filter (fun f => id f <> fileId) prev)
          (errors st)
          (match fileToRemove with
           | Some f => revoked st ++ [preview f]
           | None => revoked st
           end).

(** What can happen to a mounted multi-file uploader.  The change handler
    of the input is rebuilt on every render and sees the current
    collection.  [handleDrop] is memoised on [defaultVariant] alone, so the
    [handleMultipleFiles] it calls is the one of the render that created
    it; [memo] is the collection of that render. *)
Inductive Event :=
| Change (env : Env) (selectedFiles : list File.t)
| Drop (env : Env) (droppedFiles : list File.t)
| Remove (fileId : Js.str).

(** [handleDrop]; the other variants take the single-file path, which
    does not touch the multi-file state. *)
Definition handleDrop (m : MergedConfig) (memo : list FileItem) (env : Env)
  (droppedFiles : list File.t) (st : State) : State :=
  match m_defaultVariant m with
  | MultiFile => handleMultipleFiles m env memo droppedFiles st
  | _ => st
  end.

Definition step (m : MergedConfig) (memo : list FileItem) (st : State)
  (ev : Event) : State :=
  match ev with
  | Change env selectedFiles =>
      handleMultipleFiles m env (files st) selectedFiles st
  | Drop env droppedFiles => handleDrop m memo env droppedFiles st
  | Remove fileId => removeFile fileId st
  end.

Definition run (m : MergedConfig) (memo : list FileItem) (evs : list Event)
  (st : State) : State :=
  foldl (step m memo) st evs.

(** Events that go through the change handler or the remove button. *)
Definition fresh (ev : Event) : bool :=
  match ev with
  | Drop _ _ => false
  | _ => true
  end.

End Component.

(* ================================================================== *)
(** ** The single-file path, the display helpers and the dialog *)
(* ================================================================== *)

(** The string methods the display helpers add to those of [Js]. *)
Module JsText.

(** [s.toUpperCase()] on the Basic Latin and Latin-1 letters: the sharp s
    becomes two letters, the micro sign and the y with diaeresis leave
    Latin-1; code units outside these two blocks are left as they are. *)
Definition upperUnit (c : N) : list N :=
  if (97 <=? c) && (c <=? 122) then [c - 32]
  else if c =? 181 then [924]
  else if c =? 223 then [83; 83]
  else if (224 <=? c) && (c <=? 254) && negb (c =? 247) then [c - 32]
  else if c =? 255 then [376]
  else [c].

Definition toUpperCase (s : Js.str) : Js.str := concat (map upperUnit s).

(** [s.includes(c)] for one code unit. *)
Definition includes (s : Js.str) (c : N) : bool := existsb (N.eqb c) s.

(** [parts.join(sep)] *)
Fixpoint join (sep : Js.str) (parts : list Js.str) : Js.str :=
  match parts with
  | [] => []
  | [p] => p
  | p :: rest => p ++ sep ++ join sep rest
  end.

End JsText.

Module Display.

(** The callback of [accept.split(",").map] in [formatFileTypes]; [None]
    is the [TypeError] of calling [toUpperCase] on [undefined]. *)
Definition label (type : Js.str) : option Js.str :=
  let trimmed := Js.trim type in
  if Js.startsWith trimmed (Js.lit ".")
  then Some (JsText.toUpperCase (drop 1 trimmed))
  else if JsText.includes trimmed 47
  then JsText.toUpperCase <$> (Js.split 47 trimmed !! 1%nat)
  else Some (JsText.toUpperCase trimmed).

Definition formatFileTypes (accept : Js.str) : option Js.str :=
  if Js.eqb accept (Js.lit "image/*") then Some (Js.lit "Images")
  else if Js.eqb accept (Js.lit "video/*") then Some (Js.lit "Videos")
  else if Js.eqb accept (Js.lit "audio/*") then Some (Js.lit "Audio files")
  else if Js.eqb accept (Js.lit "*/*") then Some (Js.lit "All files")
  else
    extensions ← mapM label (Js.split 44 accept);
    Some (JsText.join (Js.lit ", ") extensions).

(** The [disabled] attribute of the "Add more" button. *)
Definition addMoreDisabled (m : Component.MergedConfig)
  (files : list Component.FileItem) : bool :=
  (Component.effectiveMaxFiles m <=? length files)%nat.

End Display.

Module SingleFile.

(** The state of the single-file variants; [alerts] are the texts passed to
    [alert], oldest first. *)
Record State := mkState {
  filepath : Js.str;
  fileName : Js.str;
  alerts : list Js.str;
}.

(** The state at mount, for the [src] property. *)
Definition initial (src : Js.str) : State := mkState src [] [].

(** [handleFile]; [url] is the object URL the platform creates.  The
    quotient [file.size / (1024 * 1024)] is a division by a power of two
    and so exact, which makes the comparison one of integers. *)
Definition handleFile (m : Component.MergedConfig) (url : Js.str) (f : File.t)
  (st : State) : State :=
  if negb (Component.m_maxFileSizeMB m =? 0)
     && (Component.m_maxFileSizeMB m * (1024 * 1024) <? File.size f)
  then mkState (filepath st) (fileName st)
         (alerts st ++ [Js.lit "File size exceeds "
                        ++ Js.ofN (Component.m_maxFileSizeMB m) ++ Js.lit "MB."])
  else mkState url (File.name f) (alerts st).

(** [handleFileChange]: [e.target.files?.[0]]. *)
Definition handleFileChange (m : Component.MergedConfig) (url : Js.str)
  (files : list File.t) (st : State) : State :=
  match files with
  | f :: _ => handleFile m url f st
  | [] => st
  end.

(** The branch of [handleDrop] the variants other than multi-file take. *)
Definition handleDrop (m : Component.MergedConfig) (url : Js.str)
  (droppedFiles : list File.t) (st : State) : State :=
  match Component.m_defaultVariant m with
  | Component.MultiFile => st
  | _ => match droppedFiles with
         | f :: _ => handleFile m url f st
         | [] => st
         end
  end.

Definition handleReset (st : State) : State := mkState [] [] (alerts st).

End SingleFile.

Module Dialog.

(** [openFileDialog] of the hook: whether the file input is clicked. *)
Definition openFileDialog (st : Hook.State) : bool := negb (Hook.isUploading st).

End Dialog.

(* ================================================================== *)
(** ** Vocabulary of the statements *)
(* ================================================================== *)

(** The reason of a verdict, without its message. *)
Definition reasonOf (v : option (Reason * Js.str)) : option Reason := fst <$> v.

(** The messages the component pushes for a batch, by recursion on the
    batch; [held] counts the files held or accepted so far. *)
Fixpoint rejections (m : Component.MergedConfig) (held : nat)
  (batch : list File.t) : list Js.str :=
  match batch with
  | [] => []
  | f :: rest =>
      match Component.reject m held f with
      | Some (_, message) => message :: rejections m held rest
      | None => rejections m (S held) rest
      end
  end.

(** The items the component accepts from a batch, by recursion on the
    batch; [k] is the index of the next candidate. *)
Fixpoint acceptances (m : Component.MergedConfig) (env : Component.Env)
  (held k : nat) (batch : list File.t) : list Component.FileItem :=
  match batch with
  | [] => []
  | f :: rest =>
      match Component.reject m held f with
      | Some _ => acceptances m env held (S k) rest
      | None => Component.fileItem env k f :: acceptances m env (S held) (S k) rest
      end
  end.

(** The hook's view of a batch: the candidates [validateFile] lets through,
    the messages of the others, and the state after [onError] has been
    called with each message. *)
Definition passes (fmt : N -> Js.str) (o : Hook.UseFileUploadOptions)
  (f : File.t) : bool :=
  match Hook.validateFile fmt o f with
  | None => true
  | Some _ => false
  end.

Definition messages (fmt : N -> Js.str) (o : Hook.UseFileUploadOptions)
  (batch : list File.t) : list Js.str :=
  omap (fun f => snd <$> Hook.validateFile fmt o f) batch.

Definition reported (o : Hook.UseFileUploadOptions) (msgs : list Js.str)
  (st : Hook.State) : Hook.State :=
  foldl (fun s e => Hook.call (Hook.onError o) (Hook.OnError e) s) st msgs.

(** The preview promises of a batch fulfil with the records [recs]. *)
Definition previewed (env : Hook.Env) (batch : list File.t)
  (recs : list Hook.FileWithPreview) : Prop :=
  imap (fun k f => Hook.createFilePreview (Hook.randomId env k) f) batch
  = map Resolves recs.

(** Every preview promise of a batch of [n] files settles. *)
Definition settlesAll (env : Hook.Env) (n : nat) : Prop :=
  forall i, (i < n)%nat -> i ∈ Hook.order env.

(** The same file with another size. *)
Definition resized (f : File.t) (bytes : N) : File.t :=
  File.mk (File.name f) bytes (File.type f) (File.content f).

(** The messages passed to [onError] among the calls of a hook. *)
Definition errorCalls (cs : list Hook.Call) : list Js.str :=
  omap (fun c => match c with Hook.OnError e => Some e | _ => None end) cs.

(** The message [handleFiles] derives from a failed upload. *)
Definition failureMessage (e : Thrown) : Js.str :=
  match e with
  | ErrorObject message => message
  | OtherValue => Js.lit "Upload failed"
  end.


(** The slots of a [Promise.all] over promises that fulfil with [vs]:
    filled where [settled i] holds, empty elsewhere. *)
Definition filled {A} (vs : list A) (settled : nat -> Prop)
  (sl : list (option A)) : Prop :=
  length sl = length vs
  /\ forall i v, vs !! i = Some v ->
       (settled i -> sl !! i = Some (Some v))
       /\ (~ settled i -> sl !! i = Some None).

(** The slots of a [Promise.all] only hold values its promises fulfilled
    with. *)
Definition sound {A} (ps : list (Outcome A)) (s : Promise.AllState A) : Prop :=
  length (Promise.slots s) = length ps
  /\ forall i v, Promise.slots s !! i = Some (Some v) -> ps !! i = Some (Resolves v).

(** [n] firings of one progress interval. *)
Definition ticks (n : nat) (interval : nat) : list Hook.Event :=
  replicate n (Hook.IntervalFires interval).

(** The calls a batch adds when its previews fulfil and [shown] is the list
    of files then displayed. *)
Definition selectionCalls (o : Hook.UseFileUploadOptions) (msgs : list Js.str)
  (shown : list File.t) : list Hook.Call :=
  (if Hook.onError o then map Hook.OnError msgs else [])
  ++ (if Hook.onFilesSelected o then [Hook.OnFilesSelected shown] else [])
  ++ (if Hook.onUpload o then [Hook.OnUpload shown] else []).

(** An empty file whose MIME type is made to fit the first pattern of the
    accepted types of [m]; the platform can hand over such a file when this
    type is [lowerAscii]. *)
Definition fittingFile (m : Component.MergedConfig) : File.t :=
  let p := default [] (head (map Js.trim (Js.split 44 (Component.m_acceptedFileTypes m)))) in
  File.mk [] 0
    (if Js.endsWith p (Js.lit "/*") then Js.replaceFirst (Js.lit "/*") p else p)
    None.

(** A MIME type as the platform reports it for a [File]: printable ASCII
    with no upper-case letter. *)
Definition lowerAscii (t : Js.str) : bool :=
  forallb (fun c => (32 <=? c) && (c <=? 126) && negb ((65 <=? c) && (c <=? 90))) t.

(** Section 4.1 of the specification, in its own words. *)
Module Spec.

Record ConstraintSet := mkConstraints {
  acceptedTypePatterns : list Js.str;
  maxSizeBytes : N;
  minSizeBytes : N;
  maxFileCount : nat;
  allowMultiple : bool;
}.

(** The four checks in their order; [typeOk] is the outcome of the type
    matching of check 4. *)
Definition validate (c : ConstraintSet) (currentCount : nat) (f : File.t)
  (typeOk : bool) : option Reason :=
  if maxSizeBytes c <? File.size f then Some SizeTooLarge
  else if File.size f <? minSizeBytes c then Some SizeTooSmall
  else if (maxFileCount c <=? currentCount)%nat then Some CapacityExceeded
  else if negb typeOk then Some UnsupportedType
  else None.

(** The Constraint Set a hook is configured with. *)
Definition ofHook (o : Hook.UseFileUploadOptions) : ConstraintSet :=
  mkConstraints (map Js.trim (Js.split 44 (Hook.accept o)))
                (Hook.maxSize o) (Hook.minSize o) (Hook.maxFiles o)
                (Hook.multiple o).

(** The Constraint Set a multi-file uploader is configured with; it has
    no lower bound on the size. *)
Definition ofComponent (m : Component.MergedConfig) : ConstraintSet :=
  mkConstraints (map Js.trim (Js.split 44 (Component.m_acceptedFileTypes m)))
                (Component.effectiveMaxSize m) 0 (Component.effectiveMaxFiles m)
                true.

End Spec.

(** The outcome of the type check of each validator. *)
Definition hookTypeOk (o : Hook.UseFileUploadOptions) (f : File.t) : bool :=
  Js.eqb (Hook.accept o) (Js.lit "*/*")
  || existsb (Hook.matchesType f) (map Js.trim (Js.split 44 (Hook.accept o))).

Definition componentTypeOk (m : Component.MergedConfig) (f : File.t) : bool :=
  bool_decide (Component.m_acceptedFileTypes m = [])
  || Js.eqb (Component.m_acceptedFileTypes m) (Js.lit "*/*")
  || Component.isAccepted m f.

(* ================================================================== *)
(** ** Fixtures for the closed statements *)
(* ================================================================== *)

Module Fixture.

Definition formatFileSize (bytes : N) : Js.str := Js.ofN bytes.

Definition image (n : string) (bytes : N) : File.t :=
  File.mk (Js.lit n) bytes (Js.lit "image/png") (Some [137; 80; 78; 71]).

Definition document (n : string) (bytes : N) : File.t :=
  File.mk (Js.lit n) bytes (Js.lit "application/pdf") (Some [37; 80; 68; 70]).

Definition five : list File.t :=
  [image "a.png" 10; image "b.png" 20; image "c.png" 30;
   image "d.png" 40; image "e.png" 50].

(** Identifiers by position; the previews settle last to first. *)
Definition hookEnv (n : nat) : Hook.Env :=
  Hook.mkEnv (fun k => Js.lit "id" ++ Js.ofNat k) (reverse (seq 0 n)).

Definition componentEnv : Component.Env :=
  Component.mkEnv (fun k => Js.lit "0-0." ++ Js.ofNat k)
                  (fun k => Js.lit "blob:" ++ Js.ofNat k).

(** The record [createFilePreview] yields for the k-th file of a batch of
    readable images. *)
Definition record (k : nat) (f : File.t) : Hook.FileWithPreview :=
  Hook.mkFileWithPreview (Js.lit "id" ++ Js.ofNat k) f
    (Hook.dataURL (File.type f) (default [] (File.content f))).

End Fixture.

(* ================================================================== *)
(** ** Strings *)
(* ================================================================== *)

Lemma startsWith_prefix (s p : Js.str) :
  Js.startsWith s p = true <-> p `prefix_of` s.
Proof.
  revert s. induction p as [|c p IH]; intros s; simpl.
  - split; [intros _; apply prefix_nil | done].
  - destruct s as [|d s]; simpl.
    + split; [done | intros H; by apply prefix_nil_not in H].
    + rewrite andb_true_iff, IH, N.eqb_eq. split.
      * intros [-> H]. by apply prefix_cons.
      * intros H. split; [by apply prefix_cons_inv_1 in H
                        | by apply prefix_cons_inv_2 in H].
Qed.

Lemma endsWith_suffix (s p : Js.str) :
  Js.endsWith s p = true <-> p `suffix_of` s.
Proof.
  unfold Js.endsWith. rewrite startsWith_prefix.
  rewrite suffix_prefix_reverse. done.
Qed.

Lemma eqb_eq (a b : Js.str) : Js.eqb a b = true <-> a = b.
Proof. unfold Js.eqb. apply bool_decide_eq_true. Qed.

(* ================================================================== *)
(** ** [Promise.all] does not depend on the order of settlement *)
(* ================================================================== *)

Section PromiseAll.

Context {A : Type}.
Implicit Types (vs : list A) (order : list nat).

Lemma values_Some vs : Promise.values (map Some vs) = Some vs.
Proof. induction vs as [|v vs IH]; simpl; [done | by rewrite IH]. Qed.

Lemma run_fulfilled vs order sl (settled : nat -> Prop) :
  filled vs settled sl ->
  let s := foldl (Promise.settle (map Resolves vs)) (Promise.mkAll sl None) order in
  Promise.rejected s = None
  /\ filled vs (fun i => settled i \/ i ∈ order) (Promise.slots s).
Proof.
  revert sl settled.
  induction order as [|k order IH]; intros sl settled [Hlen Hsl]; simpl.
  - split; [done|]. split; [done|]. intros i v Hi. destruct (Hsl i v Hi) as [H1 H2].
    split; [intros [H|H]; [auto | by apply not_elem_of_nil in H]
           | intros H; apply H2; tauto].
  - assert (Promise.settle (map Resolves vs) (Promise.mkAll sl None) k
            = Promise.mkAll (match vs !! k with
                             | Some vk => <[k := Some vk]> sl
                             | None => sl
                             end) None) as ->.
    { unfold Promise.settle. rewrite list_lookup_fmap.
      by destruct (vs !! k). }
    destruct (vs !! k) as [vk|] eqn:Hk.
    + destruct (IH (<[k := Some vk]> sl) (fun i => settled i \/ i = k)) as [Hr Hf].
      { split; [by rewrite length_insert|]. intros i v Hi.
        destruct (Hsl i v Hi) as [H1 H2]. destruct (decide (i = k)) as [->|Hne].
        - assert (v = vk) by congruence. subst v. split.
          + intros _. apply list_lookup_insert_eq. rewrite Hlen.
            by eapply lookup_lt_Some.
          + intros H. exfalso. apply H. by right.
        - rewrite list_lookup_insert_ne by done. split.
          + intros [H|H]; [auto | done].
          + intros H. apply H2. tauto. }
      split; [done|]. destruct Hf as [Hl Hf]. split; [done|].
      intros i v Hi. destruct (Hf i v Hi) as [H1 H2]. split.
      * intros [H|H]; apply H1; [tauto|].
        apply elem_of_cons in H as [->|H]; tauto.
      * intros H. apply H2. intros [[H'|H']|H']; apply H; [tauto| |].
        -- right. subst. apply elem_of_cons. tauto.
        -- right. apply elem_of_cons. tauto.
    + destruct (IH sl settled) as [Hr Hf]; [done|].
      split; [done|]. destruct Hf as [Hl Hf]. split; [done|].
      intros i v Hi. destruct (Hf i v Hi) as [H1 H2]. split.
      * intros [H|H]; apply H1; [tauto|].
        apply elem_of_cons in H as [->|H]; [congruence | tauto].
      * intros H. apply H2. intros [H'|H']; apply H; [tauto|].
        right. apply elem_of_cons. tauto.
Qed.

Lemma all_fulfilled vs order :
  (forall i, (i < length vs)%nat -> i ∈ order) ->
  Promise.all (map Resolves vs) order = Resolves vs.
Proof.
  intros Hall. unfold Promise.all, Promise.run.
  destruct (run_fulfilled vs order (replicate (length vs) None) (fun _ => False))
    as [Hr [Hl Hf]].
  { split; [by rewrite length_replicate|]. intros i v Hi. split; [done|].
    intros _. apply lookup_replicate_2. by eapply lookup_lt_Some. }
  rewrite length_map. rewrite Hr.
  assert (Promise.slots
            (foldl (Promise.settle (map Resolves vs))
               (Promise.mkAll (replicate (length vs) None) None) order)
          = map Some vs) as ->.
  { apply list_eq. intros i. rewrite list_lookup_fmap.
    destruct (vs !! i) as [v|] eqn:Hi; simpl.
    - destruct (Hf i v Hi) as [H1 _]. apply H1. right. apply Hall.
      by eapply lookup_lt_Some.
    - apply lookup_ge_None. rewrite Hl. by apply lookup_ge_None. }
  by rewrite values_Some.
Qed.

Lemma settle_sound ps (s : Promise.AllState A) k :
  sound ps s -> sound ps (Promise.settle ps s k).
Proof.
  intros [Hl Hs]. unfold Promise.settle.
  destruct (ps !! k) as [[v|e|]|] eqn:Hk; try done; split; simpl; try done.
  - by rewrite length_insert.
  - intros i w. destruct (decide (i = k)) as [->|Hne].
    + rewrite list_lookup_insert_eq; [by intros [= <-]|].
      rewrite Hl. by eapply lookup_lt_Some.
    + rewrite list_lookup_insert_ne by done. apply Hs.
Qed.

Lemma run_sound ps order : @sound A ps (Promise.run ps order).
Proof.
  unfold Promise.run.
  assert (sound ps (Promise.mkAll (replicate (length ps) None) None)) as H0.
  { split; simpl; [by rewrite length_replicate|]. intros i v Hi.
    apply lookup_replicate in Hi as [? _]. done. }
  revert H0. generalize (Promise.mkAll (A:=A) (replicate (length ps) None) None).
  induction order as [|k order IH]; intros s Hs; simpl; [done|].
  apply IH. by apply settle_sound.
Qed.

Lemma values_inv (sl : list (option A)) vs :
  Promise.values sl = Some vs -> sl = map Some vs.
Proof.
  revert vs. induction sl as [|[v|] sl IH]; intros vs; simpl;
    [by intros [= <-] | | done].
  destruct (Promise.values sl) as [ws|]; simpl; [|done].
  intros [= <-]. simpl. f_equal. by apply IH.
Qed.

(** A fulfilled [Promise.all] yields the values of its promises, one per
    promise and in the order of the promises. *)
Lemma all_resolves_inv ps order vs :
  Promise.all ps order = Resolves vs -> ps = map Resolves vs.
Proof.
  unfold Promise.all. destruct (run_sound ps order) as [Hl Hs].
  destruct (Promise.rejected _); [done|].
  destruct (Promise.values _) as [ws|] eqn:Hv; [|done].
  intros [= ->]. apply values_inv in Hv. rewrite Hv in Hl, Hs.
  rewrite length_map in Hl. apply list_eq. intros i.
  rewrite list_lookup_fmap. destruct (vs !! i) as [v|] eqn:Hi; simpl.
  - apply Hs. by rewrite list_lookup_fmap, Hi.
  - apply lookup_ge_None. rewrite <- Hl. by apply lookup_ge_None.
Qed.

End PromiseAll.

(* ================================================================== *)
(** ** The hook: the validation loop and [handleFiles] *)
(* ================================================================== *)

Section HookFacts.

Variable fmt : N -> Js.str.
Variable o : Hook.UseFileUploadOptions.

Lemma reported_cons e msgs st :
  reported o (e :: msgs) st
  = reported o msgs (Hook.call (Hook.onError o) (Hook.OnError e) st).
Proof. done. Qed.

Lemma reported_fields msgs st :
  Hook.files (reported o msgs st) = Hook.files st
  /\ Hook.isUploading (reported o msgs st) = Hook.isUploading st
  /\ Hook.uploadProgress (reported o msgs st) = Hook.uploadProgress st
  /\ Hook.intervals (reported o msgs st) = Hook.intervals st
  /\ Hook.nextTimer (reported o msgs st) = Hook.nextTimer st
  /\ Hook.calls (reported o msgs st)
     = Hook.calls st ++ (if Hook.onError o then map Hook.OnError msgs else []).
Proof.
  revert st. induction msgs as [|e msgs IH]; intros st.
  - simpl. destruct (Hook.onError o); by rewrite app_nil_r.
  - rewrite reported_cons. destruct (IH (Hook.call (Hook.onError o) (Hook.OnError e) st))
      as (-> & -> & -> & -> & -> & ->).
    unfold Hook.call; simpl. destruct (Hook.onError o); simpl;
      by rewrite <- ?app_assoc.
Qed.

(** The [forEach] of [handleFiles], as a filter and a list of messages. *)
Lemma visit_loop sel vs es st :
  foldl (Hook.visit fmt o) (vs, es, st) sel
  = (vs ++ filter (fun f => passes fmt o f = true) sel,
     es ++ messages fmt o sel,
     reported o (messages fmt o sel) st).
Proof.
  revert vs es st. induction sel as [|f sel IH]; intros vs es st.
  - simpl. by rewrite !app_nil_r.
  - cbn [foldl].
    assert (Hook.visit fmt o (vs, es, st) f
            = match Hook.validateFile fmt o f with
              | Some (_, e) =>
                  (vs, es ++ [e], Hook.call (Hook.onError o) (Hook.OnError e) st)
              | None => (vs ++ [f], es, st)
              end) as -> by done.
    unfold messages, passes. simpl.
    destruct (Hook.validateFile fmt o f) as [[r e]|] eqn:Hv; simpl; rewrite IH.
    + rewrite filter_cons_False by (rewrite Hv; done).
      rewrite <- app_assoc. done.
    + rewrite filter_cons_True by (rewrite Hv; done).
      rewrite <- app_assoc. done.
Qed.

Lemma messages_cons f sel :
  messages fmt o (f :: sel)
  = match Hook.validateFile fmt o f with
    | Some (_, e) => e :: messages fmt o sel
    | None => messages fmt o sel
    end.
Proof.
  unfold messages. simpl. by destruct (Hook.validateFile fmt o f) as [[r e]|].
Qed.

Lemma valid_cons f sel :
  filter (fun f => passes fmt o f = true) (f :: sel)
  = match Hook.validateFile fmt o f with
    | Some _ => filter (fun f => passes fmt o f = true) sel
    | None => f :: filter (fun f => passes fmt o f = true) sel
    end.
Proof.
  destruct (Hook.validateFile fmt o f) eqn:Hv.
  - apply filter_cons_False. unfold passes. by rewrite Hv.
  - apply filter_cons_True. unfold passes. by rewrite Hv.
Qed.

Lemma messages_length sel :
  (length (filter (fun f => passes fmt o f = true) sel)
   + length (messages fmt o sel))%nat = length sel.
Proof.
  induction sel as [|f sel IH]; [done|].
  rewrite messages_cons, valid_cons.
  destruct (Hook.validateFile fmt o f) as [[r e]|]; simpl; lia.
Qed.

Lemma all_pass sel :
  Forall (fun f => Hook.validateFile fmt o f = None) sel ->
  filter (fun f => passes fmt o f = true) sel = sel /\ messages fmt o sel = [].
Proof.
  induction 1 as [|f sel Hf _ [IH1 IH2]]; [done|].
  rewrite messages_cons, valid_cons, Hf. by rewrite IH1, IH2.
Qed.

(** [handleFiles] when the previews of the valid candidates fulfil. *)
Lemma handleFiles_previewed env snap sel st recs :
  let valid := filter (fun f => passes fmt o f = true) sel in
  valid <> [] ->
  previewed env valid recs ->
  settlesAll env (length valid) ->
  let final :=
    take (Hook.maxFiles o) (if Hook.multiple o then snap ++ recs else recs) in
  let st1 := Hook.call (Hook.onFilesSelected o)
               (Hook.OnFilesSelected (map Hook.file final))
               (Hook.setFiles final (reported o (messages fmt o sel) st)) in
  Hook.handleFiles fmt o env snap sel st
  = if Hook.onUpload o
    then (Hook.call true (Hook.OnUpload (map Hook.file final))
            (Hook.setInterval
               (Hook.setUploadProgress 0 (Hook.setIsUploading true st1))),
          Hook.AwaitingUpload (Hook.nextTimer st))
    else (st1, Hook.Returned).
Proof.
  intros valid Hne Hprev Hall final st1.
  unfold Hook.handleFiles. rewrite visit_loop. simpl.
  fold valid. destruct valid as [|v valid'] eqn:Hvalid; [done|].
  assert ((0 <? length (v :: valid'))%nat = true) as -> by done.
  unfold previewed in Hprev. rewrite Hprev.
  rewrite all_fulfilled.
  2:{ intros i Hi. apply Hall. apply (f_equal length) in Hprev.
      rewrite length_imap, length_map in Hprev. by rewrite Hprev. }
  fold final. fold st1. destruct (Hook.onUpload o); [|done].
  do 2 f_equal. unfold st1. simpl.
  by destruct (reported_fields (messages fmt o sel) st) as (_ & _ & _ & _ & -> & _).
Qed.

(** Whatever the platform does, a call of [handleFiles] either leaves the
    collection as it is or replaces it by a list cut at [maxFiles]. *)
Lemma handleFiles_files env snap sel st :
  let st' := (Hook.handleFiles fmt o env snap sel st).1 in
  Hook.files st' = Hook.files st
  \/ exists recs,
       previewed env (filter (fun f => passes fmt o f = true) sel) recs
       /\ Hook.files st'
          = take (Hook.maxFiles o) (if Hook.multiple o then snap ++ recs else recs).
Proof.
  unfold Hook.handleFiles. rewrite visit_loop. simpl.
  destruct (reported_fields (messages fmt o sel) st) as (Hf & _).
  destruct (0 <? _)%nat; [|by left].
  destruct (Promise.all _ _) as [recs|e|] eqn:Hall; [|by left..].
  right. exists recs. split.
  2:{ destruct (Hook.onUpload o); simpl; unfold Hook.call;
      destruct (Hook.onFilesSelected o); done. }
  by apply all_resolves_inv in Hall.
Qed.

End HookFacts.

(* ================================================================== *)
(** ** The component: the validation loop and [handleMultipleFiles] *)
(* ================================================================== *)

Section ComponentFacts.

Variable m : Component.MergedConfig.
Variable env : Component.Env.

Lemma effectiveMaxFiles_pos : (1 <= Component.effectiveMaxFiles m)%nat.
Proof.
  unfold Component.effectiveMaxFiles, Component.orElse.
  destruct (Component.m_maxFiles m =? 0)%nat eqn:H; [lia|].
  apply Nat.eqb_neq in H. lia.
Qed.

Lemma visit_eq snap vs es k f :
  Component.visit m env snap (vs, es) (k, f)
  = match Component.reject m (length snap + length vs) f with
    | Some (_, message) => (vs, es ++ [message])
    | None => (vs ++ [Component.fileItem env k f], es)
    end.
Proof. done. Qed.

Lemma forEach_loop snap batch vs es k0 :
  foldl (Component.visit m env snap) (vs, es)
        (imap (fun k f => ((k0 + k)%nat, f)) batch)
  = (vs ++ acceptances m env (length snap + length vs) k0 batch,
     es ++ rejections m (length snap + length vs) batch).
Proof.
  revert vs es k0. induction batch as [|f batch IH]; intros vs es k0.
  - simpl. by rewrite !app_nil_r.
  - cbn [imap foldl]. rewrite Nat.add_0_r, visit_eq.
    rewrite (imap_ext _ (fun k f => ((S k0 + k)%nat, f)))
      by (intros; simpl; f_equal; lia).
    cbn [acceptances rejections].
    destruct (Component.reject m (length snap + length vs) f) as [[r e]|].
    + rewrite IH. by rewrite <- app_assoc.
    + rewrite IH, length_app. simpl.
      replace (length snap + (length vs + 1))%nat
        with (S (length snap + length vs)) by lia.
      by rewrite <- app_assoc.
Qed.

(** The [forEach] of [handleMultipleFiles], by recursion on the batch. *)
Lemma forEach_rec snap batch :
  Component.forEach m env snap batch
  = (acceptances m env (length snap) 0 batch, rejections m (length snap) batch).
Proof.
  unfold Component.forEach.
  rewrite (imap_ext _ (fun k f => ((0 + k)%nat, f)) batch) by done.
  rewrite forEach_loop. simpl. by rewrite Nat.add_0_r.
Qed.

Lemma reject_capacity held f :
  Component.reject m held f = None -> (held < Component.effectiveMaxFiles m)%nat.
Proof.
  unfold Component.reject.
  destruct (_ <? _); [done|].
  destruct (_ <=? held)%nat eqn:H; [done|].
  intros _. by apply Nat.leb_gt in H.
Qed.

(** A candidate that passes the size and type checks is rejected only for
    capacity. *)
Lemma reject_otherwise_valid held f :
  Component.reject m 0 f = None ->
  Component.reject m held f
  = if (Component.effectiveMaxFiles m <=? held)%nat
    then Some (CapacityExceeded, Component.maximumMessage m)
    else None.
Proof.
  unfold Component.reject.
  destruct (_ <? _); [done|].
  destruct (_ <=? 0)%nat; [done|].
  destruct (_ && _); [done|]. done.
Qed.

Lemma acceptances_bound held k batch :
  (length (acceptances m env held k batch)
   <= Component.effectiveMaxFiles m - held)%nat.
Proof.
  revert held k. induction batch as [|f batch IH]; intros held k; simpl; [lia|].
  destruct (Component.reject m held f) as [[r e]|] eqn:Hr; [apply IH|].
  apply reject_capacity in Hr. simpl. specialize (IH (S held) (S k)). lia.
Qed.

Lemma acceptances_rejections_length held k batch :
  (length (acceptances m env held k batch) + length (rejections m held batch))%nat
  = length batch.
Proof.
  revert held k. induction batch as [|f batch IH]; intros held k; simpl; [done|].
  destruct (Component.reject m held f) as [[r e]|]; simpl.
  - specialize (IH held (S k)). lia.
  - specialize (IH (S held) (S k)). lia.
Qed.


End ComponentFacts.

(* ================================================================== *)
(** ** The validators *)
(* ================================================================== *)

Lemma hook_reason fmt o f :
  reasonOf (Hook.validateFile fmt o f)
  = if negb (Hook.maxSize o =? 0) && (Hook.maxSize o <? File.size f)
    then Some SizeTooLarge
    else if negb (Hook.minSize o =? 0) && (File.size f <? Hook.minSize o)
    then Some SizeTooSmall
    else if negb (hookTypeOk o f) then Some UnsupportedType else None.
Proof.
  unfold Hook.validateFile, hookTypeOk, reasonOf.
  destruct (_ && _); [done|]. destruct (_ && _); [done|].
  destruct (Js.eqb _ _); simpl; [done|]. by destruct (existsb _ _).
Qed.

Lemma component_reason m count f :
  reasonOf (Component.reject m count f)
  = Spec.validate (Spec.ofComponent m) count f (componentTypeOk m f).
Proof.
  unfold Component.reject, Spec.validate, componentTypeOk, reasonOf. simpl.
  assert ((File.size f <? 0) = false) as -> by (apply N.ltb_ge; lia).
  destruct (_ <? _); [done|]. destruct (_ <=? _)%nat; [done|].
  destruct (bool_decide _); simpl; [done|].
  destruct (Js.eqb _ _); simpl; [done|]. by destruct (Component.isAccepted m f).
Qed.

(** C9: in the hook's validator a bound of 0 switches the size check off:
    with [maxSize = 0] no file is answered [SizeTooLarge], with
    [minSize = 0], the default, no file is answered [SizeTooSmall], and with
    both at 0 the verdict does not depend on the size of the file. *)
Theorem zero_bound_disables_size_check fmt o f :
  (Hook.maxSize o = 0 ->
   reasonOf (Hook.validateFile fmt o f) <> Some SizeTooLarge)
  /\ (Hook.minSize o = 0 ->
      reasonOf (Hook.validateFile fmt o f) <> Some SizeTooSmall)
  /\ (Hook.maxSize o = 0 -> Hook.minSize o = 0 ->
      forall bytes,
        Hook.validateFile fmt o (resized f bytes) = Hook.validateFile fmt o f)
  /\ Hook.minSize Hook.defaultOptions = 0.
Proof.
  repeat split.
  - intros H. rewrite hook_reason, H. simpl.
    destruct (_ && _); [done|]. by destruct (negb _).
  - intros H. rewrite hook_reason, H. simpl.
    destruct (_ && _); [done|]. by destruct (negb _).
  - intros H1 H2 bytes. unfold Hook.validateFile. by rewrite H1, H2.
Qed.

Lemma zero_bound_disables_size_check_witness :
  let o := Hook.mkOptions (Js.lit "*/*") true 10 0 0 false false true in
  let f := Fixture.image "huge.png" 4000 in
  reasonOf (Hook.validateFile Fixture.formatFileSize o f) <> Some SizeTooLarge
  /\ reasonOf (Hook.validateFile Fixture.formatFileSize o f) <> Some SizeTooSmall
  /\ Hook.validateFile Fixture.formatFileSize o (resized f 0)
     = Hook.validateFile Fixture.formatFileSize o f.
Proof.
  intros o f.
  destruct (zero_bound_disables_size_check Fixture.formatFileSize o f)
    as (H1 & H2 & H3 & _).
  split; [apply H1; reflexivity|].
  split; [apply H2; reflexivity|].
  apply H3; reflexivity.
Defined.

(** C4, the claim as stated fails: a hook that already holds [maxFiles]
    files lets a further file through its validator, where the four checks
    of the specification answer [CapacityExceeded]. *)
Lemma hook_validator_has_no_capacity_check :
  let o := Hook.mkOptions (Js.lit "*/*") true 1 1000 0 false false true in
  let f := Fixture.image "b.png" 10 in
  Spec.validate (Spec.ofHook o) 1 f (hookTypeOk o f) = Some CapacityExceeded
  /\ reasonOf (Hook.validateFile Fixture.formatFileSize o f) = None.
Proof. split; reflexivity. Qed.

(** C4, amended: the component checks the size upper bound, then the
    capacity, then the type, which is the sequence of the specification
    with no lower bound; the hook checks the size upper bound, skipped when
    [maxSize] is 0, then the size lower bound, skipped when [minSize] is 0,
    then the type, for every setting of its bounds, which is the sequence of
    the specification as long as capacity is not reached and [maxSize] is
    not 0; the hook never answers [CapacityExceeded], the component never
    [SizeTooSmall]; the first failing check decides, so that every candidate
    of a batch is answered by one message or accepted. *)
Theorem validators_check_in_order :
  (forall m count f,
      reasonOf (Component.reject m count f)
      = Spec.validate (Spec.ofComponent m) count f (componentTypeOk m f))
  /\ (forall fmt o count f,
         Hook.maxSize o <> 0 -> (count < Hook.maxFiles o)%nat ->
         reasonOf (Hook.validateFile fmt o f)
         = Spec.validate (Spec.ofHook o) count f (hookTypeOk o f))
  /\ (forall fmt o f,
         reasonOf (Hook.validateFile fmt o f)
         = if negb (Hook.maxSize o =? 0) && (Hook.maxSize o <? File.size f)
           then Some SizeTooLarge
           else if negb (Hook.minSize o =? 0) && (File.size f <? Hook.minSize o)
           then Some SizeTooSmall
           else if negb (hookTypeOk o f) then Some UnsupportedType
           else None)
  /\ (forall fmt o f,
         reasonOf (Hook.validateFile fmt o f) <> Some CapacityExceeded)
  /\ (forall m count f,
         reasonOf (Component.reject m count f) <> Some SizeTooSmall)
  /\ (forall fmt o batch,
         (length (filter (fun f => passes fmt o f = true) batch)
          + length (messages fmt o batch))%nat = length batch)
  /\ (forall m env held batch,
         (length (acceptances m env held 0 batch)
          + length (rejections m held batch))%nat = length batch).
Proof.
  split; [exact component_reason|].
  split.
  { intros fmt o count f Hmax Hcount. rewrite hook_reason.
    unfold Spec.validate. simpl.
    apply N.eqb_neq in Hmax. rewrite Hmax. simpl.
    destruct (_ <? File.size f); [done|].
    destruct (Hook.minSize o =? 0) eqn:Hmin; simpl.
    - apply N.eqb_eq in Hmin. rewrite Hmin.
      assert ((File.size f <? 0) = false) as -> by (apply N.ltb_ge; lia).
      apply Nat.leb_gt in Hcount. by rewrite Hcount.
    - destruct (_ <? Hook.minSize o); [done|].
      apply Nat.leb_gt in Hcount. by rewrite Hcount. }
  split; [exact hook_reason|].
  split.
  { intros fmt o f. rewrite hook_reason.
    destruct (_ && _); [done|]. destruct (_ && _); [done|]. by destruct (negb _). }
  split.
  { intros m count f. rewrite component_reason. unfold Spec.validate. simpl.
    assert ((File.size f <? 0) = false) as -> by (apply N.ltb_ge; lia).
    destruct (_ <? _); [done|]. destruct (_ <=? _)%nat; [done|].
    by destruct (negb _). }
  split.
  { intros. apply messages_length. }
  intros. apply acceptances_rejections_length.
Qed.

Lemma validators_check_in_order_witness :
  let o := Hook.mkOptions (Js.lit "image/*") true 3 1000 5 false false true in
  let o0 := Hook.mkOptions (Js.lit "text/*") true 3 0 5 false false true in
  reasonOf (Hook.validateFile Fixture.formatFileSize o (Fixture.image "a.png" 2))
  = Some SizeTooSmall
  /\ reasonOf (Hook.validateFile Fixture.formatFileSize o
                 (Fixture.document "a.pdf" 2000))
     = Some SizeTooLarge
  /\ reasonOf (Hook.validateFile Fixture.formatFileSize o0 (Fixture.image "a.png" 2))
     = Some SizeTooSmall
  /\ reasonOf (Hook.validateFile Fixture.formatFileSize o0
                 (Fixture.image "a.png" 2000))
     = Some UnsupportedType.
Proof.
  intros o o0.
  destruct validators_check_in_order as (_ & H & H0 & _).
  split; [|split; [|split]].
  - rewrite (H Fixture.formatFileSize o 0%nat); [reflexivity | simpl; lia | simpl; lia].
  - rewrite (H Fixture.formatFileSize o 0%nat); [reflexivity | simpl; lia | simpl; lia].
  - rewrite (H0 Fixture.formatFileSize o0). reflexivity.
  - rewrite (H0 Fixture.formatFileSize o0). reflexivity.
Defined.

(* ================================================================== *)
(** ** The batch intake of the component *)
(* ================================================================== *)

Lemma handleMultipleFiles_eq m env snap batch st :
  Component.handleMultipleFiles m env snap batch st
  = Component.mkState
      (Component.files st ++ acceptances m env (length snap) 0 batch)
      (rejections m (length snap) batch)
      (Component.revoked st).
Proof. unfold Component.handleMultipleFiles. by rewrite forEach_rec. Qed.

(** C10: a call of [handleMultipleFiles] sets the error list to the
    messages of the candidates it rejects in this batch, one per rejected
    candidate, whatever the list held before; when every candidate of the
    batch is accepted the list is empty. *)
Theorem errors_replaced_by_batch m env snap batch st :
  let st' := Component.handleMultipleFiles m env snap batch st in
  Component.errors st' = rejections m (length snap) batch
  /\ (forall st0,
        Component.errors (Component.handleMultipleFiles m env snap batch st0)
        = Component.errors st')
  /\ (length (Component.errors st')
      + (length (Component.files st') - length (Component.files st)))%nat
     = length batch
  /\ (length (Component.files st')
      = (length (Component.files st) + length batch)%nat ->
      Component.errors st' = []).
Proof.
  intros st'. unfold st'. rewrite handleMultipleFiles_eq. simpl.
  pose proof (acceptances_rejections_length m env (length snap) 0 batch) as Hlen.
  split; [done|]. split.
  { intros st0. by rewrite handleMultipleFiles_eq. }
  rewrite length_app. split; [lia|].
  intros H. apply nil_length_inv. lia.
Qed.

Lemma errors_replaced_by_batch_witness :
  let m := Component.mergedConfig
             (Component.mkConfig (Some Component.MultiFile) None None (Some 3%nat)) in
  let stale := Component.mkState [] [Js.lit "old.bin is not an accepted file type"] [] in
  Component.errors
    (Component.handleMultipleFiles m Fixture.componentEnv []
       [Fixture.image "a.png" 10; Fixture.image "b.png" 20] stale) = [].
Proof.
  intros m stale.
  apply (errors_replaced_by_batch m Fixture.componentEnv []
           [Fixture.image "a.png" 10; Fixture.image "b.png" 20] stale).
  reflexivity.
Defined.


(* ================================================================== *)
(** ** The batch intake of the hook *)
(* ================================================================== *)

Lemma createFilePreview_record newId f r :
  Hook.createFilePreview newId f = Resolves r ->
  Hook.id r = newId /\ Hook.file r = f.
Proof.
  unfold Hook.createFilePreview.
  destruct (Js.startsWith _ _).
  - destruct (File.content f); [|done]. by intros [= <-].
  - destruct (Js.btoa _); [|done]. by intros [= <-].
Qed.

Lemma previewed_files env batch recs :
  previewed env batch recs -> map Hook.file recs = batch.
Proof.
  unfold previewed. intros H. apply list_eq. intros k.
  apply (f_equal (fun l => l !! k)) in H.
  rewrite list_lookup_imap, list_lookup_fmap in H. rewrite list_lookup_fmap.
  destruct (batch !! k) as [f|], (recs !! k) as [r|]; simpl in *; try done.
  injection H as H. apply createFilePreview_record in H as [_ ->]. done.
Qed.

Lemma errorCalls_app cs ds : errorCalls (cs ++ ds) = errorCalls cs ++ errorCalls ds.
Proof. unfold errorCalls. apply omap_app. Qed.

Lemma call_errorCalls b c st :
  (forall e, c <> Hook.OnError e) ->
  errorCalls (Hook.calls (Hook.call b c st)) = errorCalls (Hook.calls st).
Proof.
  intros Hc. unfold Hook.call. simpl. destruct b; [|done].
  rewrite errorCalls_app. destruct c; simpl; try by rewrite app_nil_r.
  by destruct (Hc error).
Qed.

(** A batch of valid candidates whose previews all fulfil. *)
Lemma handleFiles_all_valid fmt o env snap batch recs st :
  batch <> [] ->
  Forall (fun f => Hook.validateFile fmt o f = None) batch ->
  previewed env batch recs ->
  settlesAll env (length batch) ->
  let st' := (Hook.handleFiles fmt o env snap batch st).1 in
  Hook.files st'
  = take (Hook.maxFiles o) (if Hook.multiple o then snap ++ recs else recs)
  /\ errorCalls (Hook.calls st') = errorCalls (Hook.calls st).
Proof.
  intros Hne Hvalid Hprev Hall.
  destruct (all_pass fmt o batch Hvalid) as [Hfil Hmsg].
  pose proof (handleFiles_previewed fmt o env snap batch st recs) as H.
  simpl in H. rewrite Hfil, Hmsg in H. specialize (H Hne Hprev Hall).
  simpl. rewrite H. clear H.
  destruct (Hook.onUpload o); simpl.
  - split; [by destruct (Hook.onFilesSelected o)|].
    rewrite errorCalls_app. simpl. rewrite app_nil_r.
    destruct (Hook.onFilesSelected o); simpl; [|done].
    rewrite errorCalls_app. simpl. by rewrite app_nil_r.
  - split; [by destruct (Hook.onFilesSelected o)|].
    destruct (Hook.onFilesSelected o); simpl; [|done].
    rewrite errorCalls_app. simpl. by rewrite app_nil_r.
Qed.


Lemma hookEnv_settles n : settlesAll (Fixture.hookEnv n) n.
Proof.
  intros i Hi. unfold Fixture.hookEnv. simpl.
  apply elem_of_reverse, elem_of_seq. lia.
Qed.



(** C7: a batch of valid candidates whose previews all fulfil is listed in
    the order of the input, after the records already held when [multiple]
    is set, and cut at [maxFiles]; the order in which the previews settle
    has no part in the result. *)
Theorem order_of_input_preserved fmt o rid order snap batch recs st :
  batch <> [] ->
  Forall (fun f => Hook.validateFile fmt o f = None) batch ->
  previewed (Hook.mkEnv rid order) batch recs ->
  (forall i, (i < length batch)%nat -> i ∈ order) ->
  let st' := (Hook.handleFiles fmt o (Hook.mkEnv rid order) snap batch st).1 in
  Hook.files st'
  = take (Hook.maxFiles o) (if Hook.multiple o then snap ++ recs else recs)
  /\ map Hook.file recs = batch
  /\ map Hook.id recs = map rid (seq 0 (length batch)).
Proof.
  intros Hne Hvalid Hprev Hall st'.
  split; [by apply (handleFiles_all_valid fmt o _ snap batch recs st)|].
  split; [by eapply previewed_files|].
  unfold previewed in Hprev. simpl in Hprev. apply list_eq. intros k.
  apply (f_equal (fun l => l !! k)) in Hprev.
  rewrite list_lookup_imap, list_lookup_fmap in Hprev.
  rewrite !list_lookup_fmap.
  destruct (batch !! k) as [f|] eqn:Hk, (recs !! k) as [r|]; simpl in *; try done.
  - injection Hprev as H. apply createFilePreview_record in H as [-> _].
    rewrite lookup_seq_lt by (by eapply lookup_lt_Some). done.
  - rewrite lookup_seq_ge; [done|]. by apply lookup_ge_None.
Qed.

Lemma order_of_input_preserved_witness :
  let o := Hook.mkOptions (Js.lit "image/*") true 10 1000 0 false false true in
  let abc := [Fixture.image "A.png" 1; Fixture.image "B.png" 2; Fixture.image "C.png" 3] in
  let rid := fun k => Js.lit "id" ++ Js.ofNat k in
  map Hook.file
    (Hook.files (Hook.handleFiles Fixture.formatFileSize o
                   (Hook.mkEnv rid [2; 0; 1]%nat) [] abc Hook.initial).1)
  = abc.
Proof.
  intros o abc rid.
  destruct (order_of_input_preserved Fixture.formatFileSize o rid [2; 0; 1]%nat []
              abc (imap Fixture.record abc) Hook.initial) as (H1 & H2 & _).
  - discriminate.
  - repeat constructor.
  - reflexivity.
  - intros i Hi. simpl in Hi.
    destruct i as [|[|[|i]]]; [repeat constructor.. | lia].
  - rewrite H1. reflexivity.
Defined.

(* ================================================================== *)
(** ** The size of the collection *)
(* ================================================================== *)

Lemma hook_step_bound fmt o st ev :
  (length (Hook.files st) <= Hook.maxFiles o)%nat ->
  (length (Hook.files (Hook.step fmt o st ev)) <= Hook.maxFiles o)%nat.
Proof.
  intros Hst. destruct ev as [env sel|fileId| |i|i|e|]; simpl.
  - destruct (handleFiles_files fmt o env (Hook.files st) sel st)
      as [->|(recs & _ & ->)]; [done|].
    rewrite length_take. lia.
  - etrans; [apply length_filter | done].
  - lia.
  - unfold Hook.intervalFires. destruct (bool_decide _); [|done].
    by destruct (90 <=? _)%nat.
  - done.
  - by destruct (Hook.onError o).
  - unfold Hook.timeoutFires. by destruct (Hook.timeouts st).
Qed.

Lemma hook_run_bound fmt o evs st :
  (length (Hook.files st) <= Hook.maxFiles o)%nat ->
  (length (Hook.files (Hook.run fmt o evs st)) <= Hook.maxFiles o)%nat.
Proof.
  revert st. induction evs as [|ev evs IH]; intros st Hst; [done|].
  apply IH. by apply hook_step_bound.
Qed.

Lemma component_step_bound m memo st ev :
  Component.fresh ev = true ->
  (length (Component.files st) <= Component.effectiveMaxFiles m)%nat ->
  (length (Component.files (Component.step m memo st ev))
   <= Component.effectiveMaxFiles m)%nat.
Proof.
  intros Hev Hst. destruct ev as [env sel|env sel|fileId]; [|done|]; simpl.
  - rewrite handleMultipleFiles_eq. simpl. rewrite length_app.
    pose proof (acceptances_bound m env (length (Component.files st)) 0 sel). lia.
  - etrans; [apply length_filter | done].
Qed.

Lemma component_run_bound m memo evs st :
  forallb Component.fresh evs = true ->
  (length (Component.files st) <= Component.effectiveMaxFiles m)%nat ->
  (length (Component.files (Component.run m memo evs st))
   <= Component.effectiveMaxFiles m)%nat.
Proof.
  revert st. induction evs as [|ev evs IH]; intros st Hevs Hst; [done|].
  simpl in Hevs. apply andb_true_iff in Hevs as [Hev Hevs].
  apply IH; [done|]. by apply component_step_bound.
Qed.

(** C2, the claim as stated fails: a multi-file uploader configured with
    [maxFiles: 0] falls back to six files and accepts a file. *)
Lemma zero_maxFiles_is_replaced_by_six :
  let m := Component.mergedConfig
             (Component.mkConfig (Some Component.MultiFile) None None (Some 0%nat)) in
  let st' := Component.run m []
               [Component.Change Fixture.componentEnv [Fixture.image "a.png" 10]]
               Component.initial in
  Component.m_maxFiles m = 0%nat
  /\ length (Component.files st') = 1%nat
  /\ ~ (length (Component.files st') <= Component.m_maxFiles m)%nat.
Proof. split; [reflexivity|]. split; [reflexivity|]. simpl. lia. Qed.

(** C2, amended: whatever happens to a mounted hook (selections, removals,
    clearing, timers, the end of an upload), its collection never holds
    more than [maxFiles] records; the collection of a multi-file uploader
    fed through its file input and its remove buttons never holds more than
    [maxFiles || 6] items. *)
Theorem collection_never_exceeds_maximum :
  (forall fmt o evs,
      (length (Hook.files (Hook.run fmt o evs Hook.initial))
       <= Hook.maxFiles o)%nat)
  /\ (forall m memo evs,
         forallb Component.fresh evs = true ->
         (length (Component.files (Component.run m memo evs Component.initial))
          <= Component.effectiveMaxFiles m)%nat).
Proof.
  split.
  - intros. apply hook_run_bound. simpl. lia.
  - intros. apply component_run_bound; [done|]. simpl. lia.
Qed.

Lemma collection_never_exceeds_maximum_witness :
  let m := Component.mergedConfig
             (Component.mkConfig (Some Component.MultiFile) None None (Some 3%nat)) in
  (length (Component.files
             (Component.run m []
                [Component.Change Fixture.componentEnv Fixture.five;
                 Component.Remove (Js.lit "a.png-0-0.0");
                 Component.Change Fixture.componentEnv Fixture.five]
                Component.initial)) <= 3)%nat.
Proof.
  intros m.
  apply (proj2 collection_never_exceeds_maximum m []
           [Component.Change Fixture.componentEnv Fixture.five;
            Component.Remove (Js.lit "a.png-0-0.0");
            Component.Change Fixture.componentEnv Fixture.five]).
  reflexivity.
Defined.

(** The drop handler is memoised with the collection of the render that
    created it: with [maxFiles = 2], two drops of two files each leave four
    items in the collection. *)
Lemma memoised_drop_handler_overfills :
  let m := Component.mergedConfig
             (Component.mkConfig (Some Component.MultiFile) None None (Some 2%nat)) in
  let drop := Component.Drop Fixture.componentEnv
                [Fixture.image "a.png" 10; Fixture.image "b.png" 20] in
  length (Component.files (Component.run m [] [drop; drop] Component.initial))
  = 4%nat.
Proof. reflexivity. Qed.

(* ================================================================== *)
(** ** Single-file mode of the hook *)
(* ================================================================== *)






(* ================================================================== *)
(** ** The upload action *)
(* ================================================================== *)

Lemma handleFiles_awaiting fmt o env snap sel st st1 interval :
  Hook.handleFiles fmt o env snap sel st = (st1, Hook.AwaitingUpload interval) ->
  Hook.onUpload o = true
  /\ Hook.isUploading st1 = true
  /\ Hook.uploadProgress st1 = 0%nat
  /\ interval ∈ Hook.intervals st1
  /\ last (Hook.calls st1) = Some (Hook.OnUpload (map Hook.file (Hook.files st1))).
Proof.
  unfold Hook.handleFiles. rewrite visit_loop. simpl.
  destruct (0 <? _)%nat; [|done].
  destruct (Promise.all _ _) as [recs|e|]; [|done..].
  destruct (Hook.onUpload o); [|done].
  intros [= <- <-]. simpl. split; [done|]. split; [done|]. split; [done|].
  split; [apply elem_of_cons; by left|].
  by rewrite last_snoc.
Qed.

(** Firings of the progress interval touch the progress and the timers
    only. *)
Lemma ticks_fields fmt o n interval st :
  let st' := Hook.run fmt o (replicate n (Hook.IntervalFires interval)) st in
  Hook.files st' = Hook.files st
  /\ Hook.isUploading st' = Hook.isUploading st
  /\ Hook.calls st' = Hook.calls st.
Proof.
  revert st. induction n as [|n IH]; intros st; [done|].
  simpl. destruct (IH (Hook.intervalFires interval st)) as (-> & -> & ->).
  unfold Hook.intervalFires. destruct (bool_decide _); [|done].
  by destruct (90 <=? _)%nat.
Qed.

(** The end of the [catch] block: when the upload action started by
    [handleFiles] rejects, after any number of firings of the progress
    interval, the block sets the progress to 0 and [isUploading] to false,
    hands the message of the error to [onError] when the caller gave one,
    and leaves the collection as the selection left it, the files handed to
    the upload action still listed; [handleFiles] returns instead of
    throwing. *)
Theorem failed_upload_is_reported fmt o env snap sel st st1 interval n e :
  Hook.handleFiles fmt o env snap sel st = (st1, Hook.AwaitingUpload interval) ->
  let st2 := Hook.run fmt o (replicate n (Hook.IntervalFires interval)) st1 in
  let r := Hook.uploadRejected o e st2 in
  r.2 = Hook.Returned
  /\ Hook.uploadProgress r.1 = 0%nat
  /\ Hook.isUploading r.1 = false
  /\ Hook.files r.1 = Hook.files st1
  /\ Hook.calls r.1
     = Hook.calls st1
       ++ (if Hook.onError o then [Hook.OnError (failureMessage e)] else [])
  /\ Hook.isUploading st2 = true
  /\ last (Hook.calls st1) = Some (Hook.OnUpload (map Hook.file (Hook.files r.1))).
Proof.
  intros H st2 r. apply handleFiles_awaiting in H as (_ & Hup & _ & _ & Hcall).
  destruct (ticks_fields fmt o n interval st1) as (Hf & Hu & Hc).
  fold st2 in Hf, Hu, Hc.
  assert (Hook.files r.1 = Hook.files st1) as Hfiles.
  { unfold r. simpl. rewrite <- Hf. by destruct (Hook.onError o). }
  split; [done|]. split; [unfold r; simpl; by destruct (Hook.onError o)|].
  split; [unfold r; simpl; by destruct (Hook.onError o)|].
  split; [done|]. split.
  { unfold r. simpl. rewrite Hc.
    destruct (Hook.onError o); simpl; [by destruct e | by rewrite app_nil_r]. }
  split; [by rewrite Hu|]. by rewrite Hfiles.
Qed.

Lemma failed_upload_is_reported_witness :
  let o := Hook.mkOptions (Js.lit "image/*") true 10 1000 0 false true true in
  let st1 := (Hook.handleFiles Fixture.formatFileSize o (Fixture.hookEnv 1) []
                [Fixture.image "a.png" 10] Hook.initial).1 in
  let st2 := Hook.run Fixture.formatFileSize o
               (replicate 3 (Hook.IntervalFires 0)) st1 in
  let r := Hook.uploadRejected o (ErrorObject (Js.lit "503")) st2 in
  Hook.uploadProgress st2 = 30%nat
  /\ Hook.uploadProgress r.1 = 0%nat
  /\ Hook.isUploading r.1 = false
  /\ map Hook.file (Hook.files r.1) = [Fixture.image "a.png" 10]
  /\ errorCalls (Hook.calls r.1) = [Js.lit "503"].
Proof.
  intros o st1 st2 r.
  destruct (failed_upload_is_reported Fixture.formatFileSize o (Fixture.hookEnv 1) []
              [Fixture.image "a.png" 10] Hook.initial st1 0%nat 3
              (ErrorObject (Js.lit "503")) eq_refl)
    as (_ & H1 & H2 & H3 & H4 & _).
  split; [reflexivity|].
  split; [exact H1|]. split; [exact H2|]. fold st2 r in H3, H4.
  rewrite H3, H4. split; reflexivity.
Defined.

(** The interval of a failed upload is never cleared: after the [catch]
    block it is still live, and its next firings raise the progress that
    was just reset. *)
Lemma interval_outlives_failed_upload fmt o env snap sel st st1 interval e :
  Hook.handleFiles fmt o env snap sel st = (st1, Hook.AwaitingUpload interval) ->
  let st2 := (Hook.uploadRejected o e st1).1 in
  interval ∈ Hook.intervals st2
  /\ Hook.uploadProgress (Hook.intervalFires interval st2) = 10%nat
  /\ Hook.isUploading (Hook.intervalFires interval st2) = false.
Proof.
  intros H. apply handleFiles_awaiting in H as (_ & _ & _ & Hin & _).
  assert (interval ∈ Hook.intervals (Hook.uploadRejected o e st1).1) as Hin'.
  { simpl. by destruct (Hook.onError o). }
  simpl. split; [done|]. unfold Hook.intervalFires.
  rewrite bool_decide_eq_true_2 by done.
  simpl. by destruct (Hook.onError o).
Qed.

(* ================================================================== *)
(** ** Previews *)
(* ================================================================== *)

(** When [createFilePreview] fulfils: an image that can be read yields its
    data URL, any other file whose name is made of Latin-1 code units
    yields the placeholder. *)
Lemma createFilePreview_resolves newId f :
  (Js.startsWith (File.type f) (Js.lit "image/") = true ->
   forall bytes, File.content f = Some bytes ->
     Hook.createFilePreview newId f
     = Resolves (Hook.mkFileWithPreview newId f
                   (Js.lit "data:" ++ File.type f ++ Js.lit ";base64,"
                    ++ Js.base64 bytes)))
  /\ (Js.startsWith (File.type f) (Js.lit "image/") = false ->
      Forall (fun c => c <= 255) (File.name f) ->
      Hook.createFilePreview newId f
      = Resolves (Hook.mkFileWithPreview newId f
                    (Js.lit "data:text/plain;base64,"
                     ++ Js.base64 (File.name f)))).
Proof.
  unfold Hook.createFilePreview. split.
  - intros -> bytes ->. done.
  - intros -> Hname. unfold Js.btoa.
    assert (forallb (fun c => c <=? 255) (File.name f) = true) as ->; [|done].
    apply forallb_forall. intros c Hc. apply N.leb_le.
    rewrite Forall_forall in Hname. apply Hname. by apply list_elem_of_In.
Qed.

(** C6, the code at a failing input: the preview of a file that is not an
    image and whose name holds a code unit above 255 is rejected, because
    [btoa] throws inside the promise executor, and [handleFiles] throws
    with it; the preview of an image that cannot be read never settles. *)
Theorem preview_can_fail :
  let notes := File.mk [31508; 35760; 46; 116; 120; 116] 12
                 (Js.lit "text/plain") (Some [104; 105]) in
  let photo := File.mk (Js.lit "photo.png") 2048 (Js.lit "image/png") None in
  let o := Hook.mkOptions (Js.lit "*/*") true 10 0 0 false false true in
  Hook.createFilePreview (Js.lit "id0") notes = Rejects invalidCharacterError
  /\ Hook.createFilePreview (Js.lit "id0") photo = NeverSettles
  /\ Hook.handleFiles Fixture.formatFileSize o (Fixture.hookEnv 1) [] [notes]
       Hook.initial
     = (Hook.initial, Hook.Threw invalidCharacterError)
  /\ Hook.handleFiles Fixture.formatFileSize o (Fixture.hookEnv 1) [] [photo]
       Hook.initial
     = (Hook.initial, Hook.Hung).
Proof. repeat split; reflexivity. Qed.

(* ================================================================== *)
(** ** Type matching *)
(* ================================================================== *)

(** The two kinds of pattern both validators treat alike: a pattern
    [p/*], with no earlier "/*" inside [p], accepts the MIME types that
    start with [p]; in the hook a pattern that does not end in "/*" accepts
    the MIME type equal to it and nothing else. *)
Lemma wildcard_pattern f p :
  Js.replaceFirst (Js.lit "/*") (p ++ Js.lit "/*") = p ->
  (Hook.matchesType f (p ++ Js.lit "/*") = true <-> p `prefix_of` File.type f)
  /\ Component.matchesType f (p ++ Js.lit "/*")
     = Hook.matchesType f (p ++ Js.lit "/*").
Proof.
  intros Hp. unfold Hook.matchesType, Component.matchesType.
  assert (Js.endsWith (p ++ Js.lit "/*") (Js.lit "/*") = true) as ->.
  { apply endsWith_suffix. by apply suffix_app_r. }
  rewrite Hp. split; [apply startsWith_prefix | done].
Qed.

Lemma exact_pattern f t :
  Js.endsWith t (Js.lit "/*") = false ->
  Hook.matchesType f t = true <-> File.type f = t.
Proof. intros Ht. unfold Hook.matchesType. rewrite Ht. apply eqb_eq. Qed.

(** The mixed batch of the specification's scenario, with a maximum of
    1 MB and two files, accepting images: the first image is accepted, the
    image of 2 MB and the PDF are answered by one message each. *)
Lemma mixed_batch_scenario :
  let m := Component.mergedConfig
             (Component.mkConfig (Some Component.MultiFile) (Some 1)
                (Some (Js.lit "image/*")) (Some 2%nat)) in
  let batch := [Fixture.image "imgA.png" 500000; Fixture.image "imgB.png" 2000000;
                Fixture.document "docC.pdf" 100000] in
  let o := Hook.mkOptions (Js.lit "image/*") true 2 1000000 0 false false true in
  let st' := Component.handleMultipleFiles m Fixture.componentEnv [] batch
               Component.initial in
  let ht' := (Hook.handleFiles Fixture.formatFileSize o (Fixture.hookEnv 1) []
                batch Hook.initial).1 in
  map Component.file (Component.files st') = [Fixture.image "imgA.png" 500000]
  /\ Component.errors st'
     = [Js.lit "imgB.png exceeds 1MB";
        Js.lit "docC.pdf is not an accepted file type"]
  /\ map Hook.file (Hook.files ht') = [Fixture.image "imgA.png" 500000]
  /\ map (fun f => reasonOf (Hook.validateFile Fixture.formatFileSize o f)) batch
     = [None; Some SizeTooLarge; Some UnsupportedType]
  /\ length (errorCalls (Hook.calls ht')) = 2%nat.
Proof. repeat split; reflexivity. Qed.

(** C5, the code at failing inputs: the hook compares an extension pattern
    with the MIME type and so rejects a PDF offered under [.pdf]; the
    component accepts under [.pdf] a name that merely ends in "pdf", here
    with the extension "xpdf" and here with no dot at all.  On the example
    of the claim, [image/*], both accept [image/png] and reject
    [application/pdf]. *)
Theorem extension_patterns_mismatch :
  let report := Fixture.document "report.pdf" 100 in
  let archive := File.mk (Js.lit "backup.xpdf") 100 [] None in
  let odd := File.mk (Js.lit "notapdf") 100 (Js.lit "text/plain") None in
  let o := fun a : string => Hook.mkOptions (Js.lit a) true 10 0 0 false false true in
  let m := fun a : string => Component.mergedConfig
             (Component.mkConfig (Some Component.MultiFile) None
                (Some (Js.lit a)) None) in
  reasonOf (Hook.validateFile Fixture.formatFileSize (o ".pdf"%string) report)
  = Some UnsupportedType
  /\ reasonOf (Component.reject (m ".pdf"%string) 0 report) = None
  /\ reasonOf (Component.reject (m ".pdf"%string) 0 archive) = None
  /\ reasonOf (Component.reject (m ".pdf"%string) 0 odd) = None
  /\ reasonOf (Hook.validateFile Fixture.formatFileSize (o "image/*"%string)
                 (Fixture.image "a.png" 100)) = None
  /\ reasonOf (Hook.validateFile Fixture.formatFileSize (o "image/*"%string) report)
     = Some UnsupportedType
  /\ reasonOf (Component.reject (m "image/*"%string) 0 (Fixture.image "a.png" 100)) = None
  /\ reasonOf (Component.reject (m "image/*"%string) 0 report) = Some UnsupportedType.
Proof. repeat split; reflexivity. Qed.

(* ================================================================== *)
(** ** Further properties of the hook *)
(* ================================================================== *)

(** X1: [removeFile] of the hook keeps exactly the records whose identifier
    differs from the given one, in their order; it leaves the upload state
    alone; removing an identifier that is not listed changes nothing, and so
    does removing the same identifier a second time. *)
Theorem hook_removeFile_filters fileId st :
  let st' := Hook.removeFile fileId st in
  (forall r, r ∈ Hook.files st' <-> r ∈ Hook.files st /\ Hook.id r <> fileId)
  /\ Hook.files st' `sublist_of` Hook.files st
  /\ Hook.isUploading st' = Hook.isUploading st
  /\ Hook.uploadProgress st' = Hook.uploadProgress st
  /\ Hook.calls st' = Hook.calls st
  /\ (Forall (fun r => Hook.id r <> fileId) (Hook.files st) -> st' = st)
  /\ Hook.removeFile fileId st' = st'.
Proof.
  simpl. split.
  { intros r. rewrite list_elem_of_filter. tauto. }
  split; [apply sublist_filter|]. do 3 (split; [done|]).
  assert (forall l : list Hook.FileWithPreview,
             Forall (fun r => Hook.id r <> fileId) l ->
             filter (fun f => Hook.id f <> fileId) l = l) as Hid.
  { induction 1 as [|r l Hr _ IH]; [done|].
    rewrite filter_cons_True by done. by rewrite IH. }
  split.
  - intros H. unfold Hook.removeFile, Hook.setFiles. rewrite (Hid _ H).
    by destruct st.
  - unfold Hook.removeFile, Hook.setFiles. simpl. f_equal. apply Hid.
    apply Forall_forall. intros r Hr. apply list_elem_of_filter in Hr. tauto.
Qed.

Lemma hook_removeFile_filters_witness :
  let st := (Hook.handleFiles Fixture.formatFileSize
               (Hook.mkOptions (Js.lit "*/*") true 10 1000 0 false false true)
               (Fixture.hookEnv 5) [] Fixture.five Hook.initial).1 in
  Hook.removeFile (Js.lit "nowhere") st = st.
Proof.
  intros st.
  destruct (hook_removeFile_filters (Js.lit "nowhere") st)
    as (_ & _ & _ & _ & _ & H & _).
  apply H. repeat constructor; discriminate.
Defined.

Lemma run_snoc fmt o evs ev st :
  Hook.run fmt o (evs ++ [ev]) st = Hook.step fmt o (Hook.run fmt o evs st) ev.
Proof. unfold Hook.run. by rewrite foldl_app. Qed.

Lemma tick_step fmt o n interval st :
  Hook.run fmt o (ticks (S n) interval) st
  = Hook.intervalFires interval (Hook.run fmt o (ticks n interval) st).
Proof. unfold ticks. by rewrite replicate_S_end, run_snoc. Qed.

(** The progress interval, from the moment it is started. *)
Lemma ticks_progress fmt o n interval st :
  interval ∈ Hook.intervals st ->
  Hook.uploadProgress st = 0%nat ->
  let st' := Hook.run fmt o (ticks n interval) st in
  Hook.uploadProgress st' = Nat.min (10 * n) 90
  /\ ((n <= 9)%nat -> interval ∈ Hook.intervals st')
  /\ ((10 <= n)%nat -> interval ∉ Hook.intervals st').
Proof.
  intros Hin H0. induction n as [|n (IHp & IHin & IHout)].
  - simpl. split; [by rewrite H0|]. split; [done | lia].
  - cbv zeta. rewrite tick_step. unfold Hook.intervalFires.
    destruct (decide (n <= 9)%nat) as [Hn|Hn].
    + rewrite bool_decide_eq_true_2 by auto.
      destruct (90 <=? _)%nat eqn:H90.
      * apply Nat.leb_le in H90. simpl.
        split; [lia|]. split; [lia|]. intros _.
        rewrite list_elem_of_filter. tauto.
      * apply Nat.leb_gt in H90. simpl.
        split; [lia|]. split; [intros _; apply IHin; lia | lia].
    + rewrite bool_decide_eq_false_2 by (apply IHout; lia).
      split; [lia|]. split; [lia | intros _; apply IHout; lia].
Qed.

(** X2: while the upload action started by [handleFiles] is pending, the
    n-th firing of the interval leaves the progress at 10 n, capped at 90:
    the progress stays within 0..90 and [isUploading] stays set; from the
    tenth firing on the interval is cleared. *)
Theorem progress_while_uploading fmt o env snap sel st st1 interval n :
  Hook.handleFiles fmt o env snap sel st = (st1, Hook.AwaitingUpload interval) ->
  let st2 := Hook.run fmt o (ticks n interval) st1 in
  Hook.uploadProgress st2 = Nat.min (10 * n) 90
  /\ (Hook.uploadProgress st2 <= 90)%nat
  /\ Hook.isUploading st2 = true
  /\ ((10 <= n)%nat -> interval ∉ Hook.intervals st2).
Proof.
  intros H st2. apply handleFiles_awaiting in H as (_ & Hup & H0 & Hin & _).
  destruct (ticks_progress fmt o n interval st1 Hin H0) as (Hp & _ & Hout).
  destruct (ticks_fields fmt o n interval st1) as (_ & Hu & _).
  fold st2 in Hp, Hout. split; [done|]. split; [lia|].
  split; [|done]. unfold st2, ticks. by rewrite Hu.
Qed.

Lemma progress_while_uploading_witness :
  let o := Hook.mkOptions (Js.lit "image/*") true 10 1000 0 false true true in
  let st1 := (Hook.handleFiles Fixture.formatFileSize o (Fixture.hookEnv 1) []
                [Fixture.image "a.png" 10] Hook.initial).1 in
  Hook.uploadProgress (Hook.run Fixture.formatFileSize o (ticks 12 0) st1) = 90%nat.
Proof.
  intros o st1.
  apply (progress_while_uploading Fixture.formatFileSize o (Fixture.hookEnv 1) []
           [Fixture.image "a.png" 10] Hook.initial st1 0%nat 12 eq_refl).
Defined.

(** X3: when the upload action resolves, after any number of firings, the
    progress becomes 100 with [isUploading] still set and the interval
    cleared, so that a late firing changes nothing; when the 500 ms timeout
    then fires, the progress is 0 and [isUploading] is reset; the collection
    is the one the selection left. *)
Theorem successful_upload_returns_to_idle
  fmt o env snap sel st st1 interval n :
  Hook.handleFiles fmt o env snap sel st = (st1, Hook.AwaitingUpload interval) ->
  let st2 := Hook.run fmt o (ticks n interval) st1 in
  let r := Hook.uploadResolved interval st2 in
  let st4 := Hook.timeoutFires r.1 in
  r.2 = Hook.Returned
  /\ Hook.uploadProgress r.1 = 100%nat
  /\ Hook.isUploading r.1 = true
  /\ Hook.intervalFires interval r.1 = r.1
  /\ Hook.uploadProgress st4 = 0%nat
  /\ Hook.isUploading st4 = false
  /\ Hook.files st4 = Hook.files st1
  /\ Hook.calls st4 = Hook.calls st1.
Proof.
  intros H st2 r st4. apply handleFiles_awaiting in H as (_ & Hup & _ & _ & _).
  destruct (ticks_fields fmt o n interval st1) as (Hf & Hu & Hc).
  fold (ticks n interval) in Hf, Hu, Hc. fold st2 in Hf, Hu, Hc.
  split; [done|]. split; [done|]. split; [simpl; congruence|].
  split.
  { unfold Hook.intervalFires. rewrite bool_decide_eq_false_2; [done|].
    simpl. rewrite list_elem_of_filter. tauto. }
  unfold st4, r. simpl. by rewrite Hf, Hc.
Qed.

Lemma successful_upload_returns_to_idle_witness :
  let o := Hook.mkOptions (Js.lit "image/*") true 10 1000 0 false true true in
  let st1 := (Hook.handleFiles Fixture.formatFileSize o (Fixture.hookEnv 1) []
                [Fixture.image "a.png" 10] Hook.initial).1 in
  let st3 := (Hook.uploadResolved 0
                (Hook.run Fixture.formatFileSize o (ticks 4 0) st1)).1 in
  Hook.uploadProgress st3 = 100%nat
  /\ Hook.uploadProgress (Hook.timeoutFires st3) = 0%nat.
Proof.
  intros o st1 st3.
  destruct (successful_upload_returns_to_idle Fixture.formatFileSize o
              (Fixture.hookEnv 1) [] [Fixture.image "a.png" 10] Hook.initial
              st1 0%nat 4 eq_refl) as (_ & H1 & _ & _ & H2 & _).
  split; [exact H1 | exact H2].
Defined.

Lemma handleFiles_progress fmt o env snap sel st :
  let st' := (Hook.handleFiles fmt o env snap sel st).1 in
  Hook.uploadProgress st' = Hook.uploadProgress st
  \/ Hook.uploadProgress st' = 0%nat.
Proof.
  unfold Hook.handleFiles. rewrite visit_loop. simpl.
  destruct (reported_fields o (messages fmt o sel) st) as (_ & _ & Hp & _).
  destruct (0 <? _)%nat; [|by left].
  destruct (Promise.all _ _); [|by left..].
  destruct (Hook.onUpload o); [by right | by left].
Qed.

(** X4: whatever happens to a mounted hook, in whatever order (selections,
    removals, clearing, firings of live or dead intervals, resolved or
    rejected uploads, timeouts), the progress it exposes is at most 100. *)
Theorem progress_at_most_100 fmt o evs :
  (Hook.uploadProgress (Hook.run fmt o evs Hook.initial) <= 100)%nat.
Proof.
  assert (forall st ev, (Hook.uploadProgress st <= 100)%nat ->
            (Hook.uploadProgress (Hook.step fmt o st ev) <= 100)%nat) as Hstep.
  { intros st ev Hst. destruct ev as [env sel|fileId| |i|i|e|]; simpl; try lia.
    - destruct (handleFiles_progress fmt o env (Hook.files st) sel st)
        as [H|H]; simpl in H; rewrite H; lia.
    - unfold Hook.intervalFires. destruct (bool_decide _); [|done].
      destruct (90 <=? _)%nat eqn:H90; simpl; [lia|].
      apply Nat.leb_gt in H90. lia.
    - unfold Hook.timeoutFires. destruct (Hook.timeouts st); simpl; lia. }
  assert (forall st, (Hook.uploadProgress st <= 100)%nat ->
            (Hook.uploadProgress (Hook.run fmt o evs st) <= 100)%nat) as Hrun.
  { induction evs as [|ev evs IH]; intros st Hst; [done|].
    apply IH. by apply Hstep. }
  apply Hrun. simpl. lia.
Qed.

Lemma call_calls b c st :
  Hook.calls (Hook.call b c st) = Hook.calls st ++ (if b then [c] else []).
Proof. unfold Hook.call. simpl. destruct b; [done | by rewrite app_nil_r]. Qed.

Lemma errorCalls_OnError msgs : errorCalls (map Hook.OnError msgs) = msgs.
Proof. induction msgs as [|e msgs IH]; [done|]. simpl. by rewrite IH. Qed.

Lemma handleFiles_errorCalls fmt o env snap sel st :
  errorCalls (Hook.calls (Hook.handleFiles fmt o env snap sel st).1)
  = errorCalls (Hook.calls st)
    ++ (if Hook.onError o then messages fmt o sel else []).
Proof.
  unfold Hook.handleFiles. rewrite visit_loop. simpl.
  destruct (reported_fields o (messages fmt o sel) st) as (_ & _ & _ & _ & _ & Hc).
  assert (errorCalls (Hook.calls (reported o (messages fmt o sel) st))
          = errorCalls (Hook.calls st)
            ++ (if Hook.onError o then messages fmt o sel else [])) as Hrep.
  { rewrite Hc, errorCalls_app. f_equal.
    destruct (Hook.onError o); [apply errorCalls_OnError | done]. }
  destruct (0 <? _)%nat; [|done].
  destruct (Promise.all _ _); [|done..].
  destruct (Hook.onUpload o), (Hook.onFilesSelected o); simpl;
    rewrite ?errorCalls_app; simpl; rewrite ?app_nil_r; exact Hrep.
Qed.

(** X5: up to the point where it waits for the upload action, a call of
    [handleFiles] hands the message of every candidate its validator
    rejects to [onError], once and in the order of the input, and makes no
    other error call, whether the previews of the other candidates fulfil,
    reject or never settle.  When it waits for the upload action, a resolved
    upload adds no error call and a rejected upload adds one, with the
    message of the upload error, after any number of firings of the
    interval. *)
Theorem rejected_candidates_reported fmt o env snap sel st :
  let r := Hook.handleFiles fmt o env snap sel st in
  let validation := if Hook.onError o then messages fmt o sel else [] in
  errorCalls (Hook.calls r.1) = errorCalls (Hook.calls st) ++ validation
  /\ (length (filter (fun f => passes fmt o f = true) sel)
      + length (messages fmt o sel))%nat = length sel
  /\ (forall interval n e,
         r.2 = Hook.AwaitingUpload interval ->
         let st2 := Hook.run fmt o (ticks n interval) r.1 in
         errorCalls (Hook.calls (Hook.uploadResolved interval st2).1)
         = errorCalls (Hook.calls st) ++ validation
         /\ errorCalls (Hook.calls (Hook.uploadRejected o e st2).1)
            = errorCalls (Hook.calls st) ++ validation
              ++ (if Hook.onError o then [failureMessage e] else [])).
Proof.
  intros r validation.
  pose proof (handleFiles_errorCalls fmt o env snap sel st) as Hv.
  fold r validation in Hv.
  split; [done|]. split; [apply messages_length|].
  intros interval n e _ st2.
  destruct (ticks_fields fmt o n interval r.1) as (_ & _ & Hc).
  fold (ticks n interval) in Hc. fold st2 in Hc.
  split.
  - simpl. by rewrite Hc.
  - simpl. destruct (Hook.onError o); simpl.
    + rewrite Hc, errorCalls_app, Hv. simpl. rewrite <- app_assoc.
      by destruct e.
    + rewrite Hc, Hv. by rewrite !app_nil_r.
Qed.

Lemma rejected_candidates_reported_witness :
  let o := Hook.mkOptions (Js.lit "image/*") true 10 1000 0 false true true in
  let r := Hook.handleFiles Fixture.formatFileSize o (Fixture.hookEnv 1) []
             [Fixture.document "b.pdf" 20; Fixture.image "a.png" 10]
             Hook.initial in
  let st2 := Hook.run Fixture.formatFileSize o (ticks 2 0) r.1 in
  errorCalls (Hook.calls (Hook.uploadRejected o (ErrorObject (Js.lit "503")) st2).1)
  = [Js.lit "File b.pdf has an unsupported type. Allowed types: image/*";
     Js.lit "503"].
Proof.
  intros o r st2.
  destruct (rejected_candidates_reported Fixture.formatFileSize o (Fixture.hookEnv 1)
              [] [Fixture.document "b.pdf" 20; Fixture.image "a.png" 10]
              Hook.initial) as (_ & _ & H).
  destruct (H 0%nat 2%nat (ErrorObject (Js.lit "503")) eq_refl) as [_ H2].
  fold r st2 in H2. rewrite H2. reflexivity.
Defined.

(** X6: when the preview of one valid candidate does not fulfil, the whole
    batch is lost: the collection is left as it was, neither
    [onFilesSelected] nor [onUpload] is called, and the call of
    [handleFiles] throws or never returns, also for the candidates whose
    previews did fulfil. *)
Theorem one_failed_preview_loses_the_batch fmt o env snap sel st k f :
  filter (fun f => passes fmt o f = true) sel !! k = Some f ->
  (forall r, Hook.createFilePreview (Hook.randomId env k) f <> Resolves r) ->
  let r := Hook.handleFiles fmt o env snap sel st in
  Hook.files r.1 = Hook.files st
  /\ Hook.calls r.1
     = Hook.calls st
       ++ (if Hook.onError o then map Hook.OnError (messages fmt o sel) else [])
  /\ ((exists e, r.2 = Hook.Threw e) \/ r.2 = Hook.Hung).
Proof.
  intros Hk Hbad. unfold Hook.handleFiles. rewrite visit_loop. simpl.
  destruct (reported_fields o (messages fmt o sel) st) as (Hf & _ & _ & _ & _ & Hc).
  assert ((0 <? length (filter (fun f => passes fmt o f = true) sel))%nat = true)
    as ->.
  { apply Nat.ltb_lt. apply lookup_lt_Some in Hk. lia. }
  destruct (Promise.all _ _) as [recs|e|] eqn:Hall.
  - exfalso. apply all_resolves_inv in Hall.
    apply (f_equal (fun l => l !! k)) in Hall.
    rewrite list_lookup_imap, Hk, list_lookup_fmap in Hall. simpl in Hall.
    destruct (recs !! k) as [r|]; [|done]. injection Hall as Hall.
    by apply (Hbad r).
  - simpl. split; [done|]. split; [done|]. left. by exists e.
  - simpl. split; [done|]. split; [done|]. by right.
Qed.

Lemma one_failed_preview_loses_the_batch_witness :
  let o := Hook.mkOptions (Js.lit "*/*") true 10 1000 0 true true true in
  let wide := File.mk [31508; 35760; 46; 116; 120; 116] 12
                (Js.lit "text/plain") (Some [104; 105]) in
  let r := Hook.handleFiles Fixture.formatFileSize o (Fixture.hookEnv 3) []
             [Fixture.image "a.png" 10; wide; Fixture.image "c.png" 30]
             Hook.initial in
  Hook.files r.1 = [] /\ Hook.calls r.1 = [].
Proof.
  intros o wide r.
  destruct (one_failed_preview_loses_the_batch Fixture.formatFileSize o
              (Fixture.hookEnv 3) []
              [Fixture.image "a.png" 10; wide; Fixture.image "c.png" 30]
              Hook.initial 1%nat wide) as (H1 & H2 & _).
  - reflexivity.
  - intros r0. vm_compute. discriminate.
  - split; [exact H1 | exact H2].
Defined.

Lemma handleFiles_previewed_result fmt o env snap sel st recs :
  let valid := filter (fun f => passes fmt o f = true) sel in
  valid <> [] ->
  previewed env valid recs ->
  settlesAll env (length valid) ->
  let final :=
    take (Hook.maxFiles o) (if Hook.multiple o then snap ++ recs else recs) in
  let st' := (Hook.handleFiles fmt o env snap sel st).1 in
  Hook.files st' = final
  /\ Hook.calls st'
     = Hook.calls st ++ selectionCalls o (messages fmt o sel) (map Hook.file final).
Proof.
  intros valid Hne Hprev Hall final st'.
  pose proof (handleFiles_previewed fmt o env snap sel st recs Hne Hprev Hall) as H.
  cbv zeta in H. unfold st'. rewrite H. clear H. fold final.
  destruct (reported_fields o (messages fmt o sel) st) as (_ & _ & _ & _ & _ & Hc).
  unfold selectionCalls.
  destruct (Hook.onUpload o), (Hook.onFilesSelected o); simpl; rewrite Hc;
    (split; [done|]); rewrite <- ?app_assoc; simpl; by rewrite ?app_nil_r.
Qed.

(** X7: when the previews of the valid candidates fulfil, the calls of one
    [handleFiles] are, in this order, the error calls, [onFilesSelected]
    and [onUpload], the last two with the list of all files then displayed;
    with [multiple] set this list starts with the files already held, which
    are thus handed to the upload action again. *)
Theorem upload_receives_all_listed_files fmt o env snap sel st recs :
  let valid := filter (fun f => passes fmt o f = true) sel in
  valid <> [] ->
  previewed env valid recs ->
  settlesAll env (length valid) ->
  let st' := (Hook.handleFiles fmt o env snap sel st).1 in
  Hook.calls st'
  = Hook.calls st ++ selectionCalls o (messages fmt o sel) (map Hook.file (Hook.files st'))
  /\ (Hook.multiple o = true -> (length snap <= Hook.maxFiles o)%nat ->
      map Hook.file snap `prefix_of` map Hook.file (Hook.files st')).
Proof.
  intros valid Hne Hprev Hall st'.
  destruct (handleFiles_previewed_result fmt o env snap sel st recs Hne Hprev Hall)
    as [Hf Hc].
  fold st' in Hf, Hc. rewrite Hf. split; [done|].
  intros Hm Hlen. rewrite Hm, take_app_ge by done.
  rewrite fmap_app. by apply prefix_app_r.
Qed.

Lemma upload_receives_all_listed_files_witness :
  let o := Hook.mkOptions (Js.lit "image/*") true 10 1000 0 false true true in
  let A := Fixture.image "A.png" 1 in
  let B := Fixture.image "B.png" 2 in
  let st1 := Hook.run Fixture.formatFileSize o
               [Hook.Select (Fixture.hookEnv 1) [A]; Hook.UploadResolves 0;
                Hook.TimeoutFires] Hook.initial in
  let st2 := (Hook.handleFiles Fixture.formatFileSize o (Fixture.hookEnv 1)
                (Hook.files st1) [B] st1).1 in
  last (Hook.calls st2) = Some (Hook.OnUpload [A; B]).
Proof.
  intros o A B st1 st2.
  destruct (upload_receives_all_listed_files Fixture.formatFileSize o
              (Fixture.hookEnv 1) (Hook.files st1) [B] st1 [Fixture.record 0 B])
    as [H _].
  - discriminate.
  - reflexivity.
  - apply (hookEnv_settles 1).
  - fold st2 in H. rewrite H. reflexivity.
Defined.

(** X8: [openFileDialog] does nothing from the start of an upload, through
    the firings of the interval and the resolution of the upload action,
    until the 500 ms timeout has fired; it works again after that timeout,
    and at once after a rejected upload. *)
Theorem dialog_blocked_during_upload fmt o env snap sel st st1 interval n e :
  Hook.handleFiles fmt o env snap sel st = (st1, Hook.AwaitingUpload interval) ->
  let st2 := Hook.run fmt o (ticks n interval) st1 in
  let st3 := (Hook.uploadResolved interval st2).1 in
  Dialog.openFileDialog st2 = false
  /\ Dialog.openFileDialog st3 = false
  /\ Dialog.openFileDialog (Hook.timeoutFires st3) = true
  /\ Dialog.openFileDialog (Hook.uploadRejected o e st2).1 = true.
Proof.
  intros H st2 st3. apply handleFiles_awaiting in H as (_ & Hup & _).
  destruct (ticks_fields fmt o n interval st1) as (_ & Hu & _).
  fold (ticks n interval) in Hu. fold st2 in Hu.
  unfold Dialog.openFileDialog. rewrite Hu, Hup.
  split; [done|]. split; [unfold st3; simpl; by rewrite Hu, Hup|].
  split; [done|]. simpl. by destruct (Hook.onError o).
Qed.

Lemma dialog_blocked_during_upload_witness :
  let o := Hook.mkOptions (Js.lit "image/*") true 10 1000 0 false true true in
  let st1 := (Hook.handleFiles Fixture.formatFileSize o (Fixture.hookEnv 1) []
                [Fixture.image "a.png" 10] Hook.initial).1 in
  Dialog.openFileDialog (Hook.run Fixture.formatFileSize o (ticks 2 0) st1) = false.
Proof.
  intros o st1.
  apply (dialog_blocked_during_upload Fixture.formatFileSize o (Fixture.hookEnv 1) []
           [Fixture.image "a.png" 10] Hook.initial st1 0%nat 2 OtherValue eq_refl).
Defined.

(* ================================================================== *)
(** ** Further properties of the multi-file component *)
(* ================================================================== *)

Lemma find_by_id (l : list Component.FileItem) fileId :
  match List.find (fun f => Js.eqb (Component.id f) fileId) l with
  | Some it => it ∈ l /\ Component.id it = fileId
  | None => Forall (fun f => Component.id f <> fileId) l
  end.
Proof.
  induction l as [|it l IH]; simpl; [done|].
  destruct (Js.eqb (Component.id it) fileId) eqn:Hid.
  - apply eqb_eq in Hid. split; [apply elem_of_cons; by left | done].
  - assert (Component.id it <> fileId) as Hne.
    { intros H. apply eqb_eq in H. congruence. }
    destruct (List.find _ l) as [it'|].
    + destruct IH as [Hin Hid']. split; [apply elem_of_cons; by right | done].
    + by constructor.
Qed.

Lemma filter_all_differ (l : list Component.FileItem) fileId :
  Forall (fun f => Component.id f <> fileId) l ->
  filter (fun f => Component.id f <> fileId) l = l.
Proof.
  induction 1 as [|r l Hr _ IH]; [done|].
  rewrite filter_cons_True by done. by rewrite IH.
Qed.

(** X9: [removeFile] of the component keeps exactly the items whose
    identifier differs from the given one and leaves the error list alone;
    when the identifier is listed, the preview of one item that carries it
    is revoked, once; when it is not listed nothing is revoked and nothing
    changes, which is the case of a second removal. *)
Theorem component_removeFile_revokes_once fileId st :
  let st' := Component.removeFile fileId st in
  (forall it, it ∈ Component.files st'
              <-> it ∈ Component.files st /\ Component.id it <> fileId)
  /\ Component.errors st' = Component.errors st
  /\ (fileId ∈ map Component.id (Component.files st) ->
      exists it, it ∈ Component.files st /\ Component.id it = fileId
                 /\ Component.revoked st' = Component.revoked st ++ [Component.preview it])
  /\ (fileId ∉ map Component.id (Component.files st) -> st' = st)
  /\ Component.removeFile fileId st' = st'.
Proof.
  intros st'. split.
  { intros it. unfold st'. simpl. rewrite list_elem_of_filter. tauto. }
  split; [done|].
  assert (forall s, Forall (fun f => Component.id f <> fileId) (Component.files s) ->
                    Component.removeFile fileId s = s) as Hnoop.
  { intros s Hs. unfold Component.removeFile. cbv zeta.
    pose proof (find_by_id (Component.files s) fileId) as Hf. revert Hf.
    destruct (List.find _ _) as [it|]; intros Hf.
    - destruct Hf as [Hin Hid]. rewrite Forall_forall in Hs. exfalso. by apply (Hs it Hin).
    - rewrite filter_all_differ by done. by destruct s. }
  split.
  - intros Hin. unfold st', Component.removeFile. cbv zeta.
    pose proof (find_by_id (Component.files st) fileId) as Hfind. revert Hfind.
    destruct (List.find _ _) as [it|]; intros Hfind.
    + destruct Hfind as [Hit Hid]. by exists it.
    + apply list_elem_of_fmap in Hin as (it & Hid & Hit).
      rewrite Forall_forall in Hfind. exfalso. by apply (Hfind it Hit).
  - split.
    + intros Hout. apply Hnoop. apply Forall_forall. intros it Hit Hid.
      apply Hout. apply list_elem_of_fmap. by exists it.
    + apply Hnoop. apply Forall_forall. intros it Hit.
      unfold st' in Hit. simpl in Hit. apply list_elem_of_filter in Hit. tauto.
Qed.

Lemma component_removeFile_revokes_once_witness :
  let m := Component.mergedConfig
             (Component.mkConfig (Some Component.MultiFile) None None None) in
  let st := Component.handleMultipleFiles m Fixture.componentEnv []
              Fixture.five Component.initial in
  let st1 := Component.removeFile (Js.lit "b.png-0-0.1") st in
  Component.revoked st1 = [Js.lit "blob:1"]
  /\ Component.removeFile (Js.lit "b.png-0-0.1") st1 = st1.
Proof.
  intros m st st1.
  destruct (component_removeFile_revokes_once (Js.lit "b.png-0-0.1") st)
    as (_ & _ & H & _ & H').
  split; [reflexivity | exact H'].
Defined.

Lemma acceptances_shape m env held k batch :
  Forall (fun it => Component.name it = File.name (Component.file it)
                    /\ Component.size it = File.size (Component.file it)
                    /\ Component.type it = File.type (Component.file it))
         (acceptances m env held k batch)
  /\ map Component.file (acceptances m env held k batch) `sublist_of` batch.
Proof.
  revert held k. induction batch as [|f batch IH]; intros held k; simpl; [done|].
  destruct (Component.reject m held f) as [[r e]|].
  - destruct (IH held (S k)) as [H1 H2]. split; [done | by apply sublist_cons].
  - destruct (IH (S held) (S k)) as [H1 H2]. split.
    + by constructor.
    + simpl. by apply sublist_skip.
Qed.

(** X10: [handleMultipleFiles] only appends: the items held before stay in
    front, in their order, and nothing is revoked; the items it adds wrap
    candidates of the batch, in the order of the batch and each at most
    once, and carry the name, size and type of the file they wrap. *)
Theorem component_batch_appends m env snap batch st :
  let st' := Component.handleMultipleFiles m env snap batch st in
  let added := drop (length (Component.files st)) (Component.files st') in
  Component.files st' = Component.files st ++ added
  /\ Component.revoked st' = Component.revoked st
  /\ map Component.file added `sublist_of` batch
  /\ Forall (fun it => Component.name it = File.name (Component.file it)
                       /\ Component.size it = File.size (Component.file it)
                       /\ Component.type it = File.type (Component.file it))
            added.
Proof.
  intros st' added. unfold added, st'. rewrite handleMultipleFiles_eq. simpl.
  rewrite drop_app_length.
  destruct (acceptances_shape m env (length snap) 0 batch) as [H1 H2]. done.
Qed.

Lemma rejections_full m held batch :
  (Component.effectiveMaxFiles m <= held)%nat ->
  forall env k,
    acceptances m env held k batch = []
    /\ length (rejections m held batch) = length batch
    /\ Forall (fun e => e = Component.maximumMessage m
                        \/ exists f, f ∈ batch /\ e = Component.exceedsMessage m f)
              (rejections m held batch).
Proof.
  intros Hfull env k. revert k.
  induction batch as [|f batch IH]; intros k; simpl; [done|].
  destruct (Component.reject m held f) as [[r e]|] eqn:Hr.
  - destruct (IH (S k)) as (H1 & H2 & H3). split; [done|]. split; [simpl; by f_equal|].
    constructor.
    + unfold Component.reject in Hr. destruct (_ <? _).
      * injection Hr as _ <-. right. exists f. split; [apply elem_of_cons; by left | done].
      * apply Nat.leb_le in Hfull. rewrite Hfull in Hr. injection Hr as _ <-. by left.
    + eapply Forall_impl; [exact H3|]. intros e' [->|(f' & Hf' & ->)]; [by left|].
      right. exists f'. split; [apply elem_of_cons; by right | done].
  - apply reject_capacity in Hr. lia.
Qed.

(** X11: when the collection its closure holds is full, [handleMultipleFiles]
    accepts nothing: the collection is left as it is and every candidate is
    answered by one message, the capacity message or, for a file over the
    size limit, the size message; no candidate is answered about its
    type. *)
Theorem full_collection_accepts_nothing m env snap batch st :
  (Component.effectiveMaxFiles m <= length snap)%nat ->
  let st' := Component.handleMultipleFiles m env snap batch st in
  Component.files st' = Component.files st
  /\ length (Component.errors st') = length batch
  /\ Forall (fun e => e = Component.maximumMessage m
                      \/ exists f, f ∈ batch /\ e = Component.exceedsMessage m f)
            (Component.errors st').
Proof.
  intros Hfull st'. unfold st'. rewrite handleMultipleFiles_eq. simpl.
  destruct (rejections_full m (length snap) batch Hfull env 0%nat) as (-> & H2 & H3).
  by rewrite app_nil_r.
Qed.

Lemma full_collection_accepts_nothing_witness :
  let m := Component.mergedConfig
             (Component.mkConfig (Some Component.MultiFile) None None (Some 5%nat)) in
  let st := Component.handleMultipleFiles m Fixture.componentEnv []
              Fixture.five Component.initial in
  Component.files
    (Component.handleMultipleFiles m Fixture.componentEnv (Component.files st)
       [Fixture.document "late.pdf" 1] st)
  = Component.files st.
Proof.
  intros m st.
  apply (full_collection_accepts_nothing m Fixture.componentEnv (Component.files st)
           [Fixture.document "late.pdf" 1] st).
  vm_compute. lia.
Defined.

Lemma split_length sep (s : list N) :
  length (Js.split sep s) = S (length (filter (fun c => c = sep) s)).
Proof.
  induction s as [|c s IH]; [done|]. cbn [Js.split].
  destruct (c =? sep) eqn:Hc.
  - apply N.eqb_eq in Hc. rewrite filter_cons_True by done.
    cbn [length]. by rewrite IH.
  - apply N.eqb_neq in Hc. rewrite filter_cons_False by done.
    destruct (Js.split sep s) as [|h t]; [done|]. exact IH.
Qed.

Lemma startsWith_refl s : Js.startsWith s s = true.
Proof. by apply startsWith_prefix. Qed.

(** Every configuration accepts some file while room is left. *)
Lemma fittingFile_accepted m held :
  (held < Component.effectiveMaxFiles m)%nat ->
  Component.reject m held (fittingFile m) = None.
Proof.
  intros Hroom. unfold Component.reject.
  assert ((Component.effectiveMaxSize m <? File.size (fittingFile m)) = false) as ->.
  { apply N.ltb_ge. simpl. lia. }
  apply Nat.leb_gt in Hroom. rewrite Hroom.
  assert (Component.isAccepted m (fittingFile m) = true) as ->.
  2:{ by rewrite !andb_false_r. }
  unfold Component.isAccepted, fittingFile.
  pose proof (split_length 44 (Component.m_acceptedFileTypes m)) as Hlen.
  destruct (Js.split 44 (Component.m_acceptedFileTypes m)) as [|h t]; [done|].
  simpl. unfold Component.matchesType at 1. simpl.
  destruct (Js.endsWith (Js.trim h) (Js.lit "/*")).
  - by rewrite startsWith_refl.
  - assert (Js.eqb (Js.trim h) (Js.trim h) = true) as -> by by apply eqb_eq.
    done.
Qed.

(** X12: for an accepted-types string whose first entry is written in
    lower-case printable ASCII, the "Add more" button is disabled exactly
    when no batch of files, with MIME types as the platform reports them,
    handled against the displayed collection can add an item; when it is
    enabled such a file is accepted, whatever the configured size limit. *)
Theorem add_more_disabled_iff_full m snap :
  lowerAscii (File.type (fittingFile m)) = true ->
  Display.addMoreDisabled m snap = true
  <-> forall env batch st,
        Forall (fun f => lowerAscii (File.type f) = true) batch ->
        Component.files (Component.handleMultipleFiles m env snap batch st)
        = Component.files st.
Proof.
  intros Hfit. unfold Display.addMoreDisabled. split.
  - intros Hfull env batch st _. apply Nat.leb_le in Hfull.
    by apply (full_collection_accepts_nothing m env snap batch st).
  - intros Hnone. apply Nat.leb_le.
    destruct (decide (Component.effectiveMaxFiles m <= length snap)%nat) as [|Hroom];
      [done|].
    exfalso.
    specialize (Hnone Fixture.componentEnv [fittingFile m] Component.initial).
    rewrite handleMultipleFiles_eq in Hnone. simpl in Hnone.
    rewrite fittingFile_accepted in Hnone by lia.
    assert (Forall (fun f => lowerAscii (File.type f) = true) [fittingFile m]) as Hb
      by by constructor.
    specialize (Hnone Hb). done.
Qed.

Lemma add_more_disabled_iff_full_witness :
  let m := Component.mergedConfig
             (Component.mkConfig (Some Component.MultiFile) None None (Some 5%nat)) in
  let st := Component.handleMultipleFiles m Fixture.componentEnv []
              Fixture.five Component.initial in
  Display.addMoreDisabled m (Component.files st) = true
  /\ Component.files
       (Component.handleMultipleFiles m Fixture.componentEnv (Component.files st)
          [Fixture.image "f.png" 1] st)
     = Component.files st.
Proof.
  intros m st. split; [reflexivity|].
  apply (proj1 (add_more_disabled_iff_full m (Component.files st) eq_refl)).
  - reflexivity.
  - repeat constructor.
Defined.

(** X13: on one pattern the component accepts every file the hook accepts;
    hence, for the same accepted-types string, a file that passes the type
    check of the hook passes the type check of the component. *)
Theorem component_accepts_what_hook_accepts :
  (forall f t, Hook.matchesType f t = true -> Component.matchesType f t = true)
  /\ (forall o m f,
         Hook.accept o = Component.m_acceptedFileTypes m ->
         hookTypeOk o f = true -> componentTypeOk m f = true).
Proof.
  assert (forall f t, Hook.matchesType f t = true -> Component.matchesType f t = true)
    as Hone.
  { intros f t. unfold Hook.matchesType, Component.matchesType.
    destruct (Js.endsWith t _); [done|]. intros ->. done. }
  split; [done|].
  intros o m f Hacc. unfold hookTypeOk, componentTypeOk, Component.isAccepted.
  rewrite Hacc. intros H. apply orb_true_iff in H as [H|H].
  - rewrite H. by rewrite orb_true_r.
  - apply orb_true_iff. right. apply existsb_exists in H as (t & Ht & Hm).
    apply existsb_exists. exists t. split; [done|]. by apply Hone.
Qed.

Lemma component_accepts_what_hook_accepts_witness :
  let f := Fixture.document "report.pdf" 100 in
  Component.matchesType f (Js.lit "application/pdf") = true.
Proof.
  intros f.
  apply (proj1 component_accepts_what_hook_accepts f (Js.lit "application/pdf")).
  reflexivity.
Defined.

(** X14: with an empty accepted-types string the two validators part: the
    hook, its size checks off, accepts exactly the files whose MIME type is
    empty, while the component skips the type check and never answers that
    a type is not accepted. *)
Theorem empty_accept_string :
  (forall fmt o f,
      Hook.accept o = [] -> Hook.maxSize o = 0 -> Hook.minSize o = 0 ->
      (Hook.validateFile fmt o f = None <-> File.type f = []))
  /\ (forall m count f,
         Component.m_acceptedFileTypes m = [] ->
         reasonOf (Component.reject m count f) <> Some UnsupportedType).
Proof.
  split.
  - intros fmt o f Ha Hmax Hmin. unfold Hook.validateFile.
    rewrite Ha, Hmax, Hmin. simpl. unfold Hook.matchesType. simpl.
    rewrite orb_false_r. change (Js.trim []) with (@nil N).
    destruct (Js.eqb (File.type f) []) eqn:Ht; simpl.
    + apply eqb_eq in Ht. done.
    + split; [done|]. intros H. apply eqb_eq in H. congruence.
  - intros m count f Ha. unfold Component.reject. rewrite Ha. simpl.
    destruct (_ <? _); [done|]. by destruct (_ <=? _)%nat.
Qed.

Lemma empty_accept_string_witness :
  let o := Hook.mkOptions [] true 10 0 0 false false true in
  Hook.validateFile Fixture.formatFileSize o (File.mk (Js.lit "README") 10 [] None)
  = None.
Proof.
  intros o.
  apply (proj1 empty_accept_string Fixture.formatFileSize o
           (File.mk (Js.lit "README") 10 [] None)); reflexivity.
Defined.

(** X15: with no options given, the hook accepts a file of any type when it
    has at most 10 MiB and answers a larger one that it is too large. *)
Theorem default_options_limit fmt f :
  reasonOf (Hook.validateFile fmt Hook.defaultOptions f)
  = if 10485760 <? File.size f then Some SizeTooLarge else None.
Proof.
  rewrite hook_reason. unfold hookTypeOk.
  change (Hook.maxSize Hook.defaultOptions) with (10 * 1024 * 1024).
  change (Hook.minSize Hook.defaultOptions) with 0.
  change (10 * 1024 * 1024) with 10485760. simpl (negb (_ =? _)). simpl andb.
  destruct (10485760 <? File.size f); [done|].
  assert (Js.eqb (Hook.accept Hook.defaultOptions) (Js.lit "*/*") = true) as ->
    by by apply eqb_eq.
  done.
Qed.

(* ================================================================== *)
(** ** The single-file path and the display of the accepted types *)
(* ================================================================== *)

Lemma reject_size m count f :
  reasonOf (Component.reject m count f) = Some SizeTooLarge
  <-> Component.effectiveMaxSize m < File.size f.
Proof.
  unfold Component.reject.
  destruct (_ <? _) eqn:Hs.
  - apply N.ltb_lt in Hs. done.
  - apply N.ltb_ge in Hs. split; [|lia].
    destruct (_ <=? _)%nat; [done|]. by destruct (_ && _).
Qed.

(** X16: [handleFile] shows every file the multi-file check does not reject
    for its size, whatever its type; with a limit of at least 1 MB it
    refuses the files that check rejects for size, keeping the preview and
    the name shown before and raising one alert; with a limit of 0 it shows
    a file of any size, where the multi-file check falls back to 10 MB. *)
Theorem single_file_size_limit m url f st :
  let st' := SingleFile.handleFile m url f st in
  let shown := SingleFile.mkState url (File.name f) (SingleFile.alerts st) in
  (reasonOf (Component.reject m 0 f) <> Some SizeTooLarge -> st' = shown)
  /\ (Component.m_maxFileSizeMB m <> 0 ->
      reasonOf (Component.reject m 0 f) = Some SizeTooLarge ->
      SingleFile.filepath st' = SingleFile.filepath st
      /\ SingleFile.fileName st' = SingleFile.fileName st
      /\ length (SingleFile.alerts st') = S (length (SingleFile.alerts st)))
  /\ (Component.m_maxFileSizeMB m = 0 ->
      st' = shown
      /\ (reasonOf (Component.reject m 0 f) = Some SizeTooLarge
          <-> 10485760 < File.size f)).
Proof.
  intros st' shown. unfold st', shown, SingleFile.handleFile.
  pose proof (reject_size m 0 f) as Hsize.
  unfold Component.effectiveMaxSize, Component.orElseN in Hsize.
  destruct (Component.m_maxFileSizeMB m =? 0) eqn:Hmb; simpl.
  - apply N.eqb_eq in Hmb. split; [done|]. split; [done|].
    intros _. split; [done|]. rewrite Hsize. lia.
  - apply N.eqb_neq in Hmb. destruct (_ <? File.size f) eqn:Hlt; simpl.
    + apply N.ltb_lt in Hlt. split.
      * intros H. exfalso. apply H, Hsize. lia.
      * split; [|done]. intros _ _. rewrite length_app. simpl. split; [done|].
        split; [done | lia].
    + apply N.ltb_ge in Hlt. split; [done|]. split; [|done].
      intros _ H. apply Hsize in H. lia.
Qed.

Lemma single_file_size_limit_witness :
  let m := Component.mergedConfig (Component.mkConfig None (Some 0) None None) in
  let huge := Fixture.document "scan.pdf" 50000000 in
  SingleFile.handleFile m (Js.lit "blob:0") huge (SingleFile.initial [])
  = SingleFile.mkState (Js.lit "blob:0") (Js.lit "scan.pdf") []
  /\ reasonOf (Component.reject m 0 huge) = Some SizeTooLarge.
Proof.
  intros m huge.
  destruct (single_file_size_limit m (Js.lit "blob:0") huge (SingleFile.initial []))
    as (_ & _ & H).
  destruct (H eq_refl) as [H1 H2]. split; [exact H1|].
  apply H2. reflexivity.
Defined.

Lemma label_is_Some type : is_Some (Display.label type).
Proof.
  unfold Display.label. destruct (Js.startsWith _ _); [done|].
  destruct (JsText.includes _ _) eqn:Hinc; [|done].
  apply fmap_is_Some, lookup_lt_is_Some. rewrite split_length.
  unfold JsText.includes in Hinc. apply existsb_exists in Hinc as (c & Hc & H47).
  apply N.eqb_eq in H47. subst c.
  assert (47 ∈ filter (fun c => c = 47) (Js.trim type)) as Hin.
  { apply list_elem_of_filter. split; [done | by apply list_elem_of_In]. }
  destruct (filter _ _); [by apply not_elem_of_nil in Hin | simpl; lia].
Qed.

(** X17: [formatFileTypes] never throws, the second part of a split at "/"
    being there whenever it is read; and for an accepted-types string that
    is not one of the four named ones it builds one label per
    comma-separated entry. *)
Theorem formatFileTypes_total (accept : list N) :
  is_Some (Display.formatFileTypes accept)
  /\ (forall labels,
         mapM Display.label (Js.split 44 accept) = Some labels ->
         length labels = S (length (filter (fun c => c = 44) accept)))
  /\ is_Some (mapM Display.label (Js.split 44 accept)).
Proof.
  assert (is_Some (mapM Display.label (Js.split 44 accept))) as Hall.
  { apply mapM_is_Some_2, Forall_forall. intros t _. apply label_is_Some. }
  split.
  - unfold Display.formatFileTypes.
    repeat (destruct (Js.eqb accept _); [done|]).
    destruct Hall as [labels ->]. done.
  - split; [|done]. intros labels H. apply mapM_Some_1, Forall2_length in H.
    by rewrite <- H, split_length.
Qed.

Lemma formatFileTypes_total_witness :
  Display.formatFileTypes (Js.lit ".pdf, .doc,.docx,text/plain")
  = Some (Js.lit "PDF, DOC, DOCX, PLAIN")
  /\ length [Js.lit "PDF"; Js.lit "DOC"; Js.lit "DOCX"; Js.lit "PLAIN"] = 4%nat.
Proof.
  split; [reflexivity|].
  apply (proj1 (proj2 (formatFileTypes_total (Js.lit ".pdf, .doc,.docx,text/plain")))).
  reflexivity.
Defined.

(* ================================================================== *)
(** ** Mixed batches and the wildcard entry *)
(* ================================================================== *)

Lemma reject_None_iff m held f :
  Component.reject m held f = None
  <-> Component.reject m 0 f = None /\ (held < Component.effectiveMaxFiles m)%nat.
Proof.
  split.
  - intros H. split; [|by eapply reject_capacity].
    revert H. unfold Component.reject.
    destruct (_ <? _); [done|].
    destruct (_ <=? held)%nat; [done|].
    pose proof (effectiveMaxFiles_pos m) as Hpos. apply Nat.leb_gt in Hpos.
    by rewrite Hpos.
  - intros [H0 Hroom]. rewrite (reject_otherwise_valid m held f H0).
    apply Nat.leb_gt in Hroom. by rewrite Hroom.
Qed.

Lemma acceptances_mixed m env held k batch :
  map Component.file (acceptances m env held k batch)
  = take (Component.effectiveMaxFiles m - held)
         (filter (fun f => Component.reject m 0 f = None) batch).
Proof.
  revert held k. induction batch as [|f batch IH]; intros held k;
    cbn [acceptances].
  - by rewrite filter_nil, take_nil.
  - destruct (Component.reject m held f) as [[r e]|] eqn:Hr.
    + rewrite IH. destruct (decide (Component.reject m 0 f = None)) as [H0|H0].
      * rewrite filter_cons_True by done.
        assert (~ (held < Component.effectiveMaxFiles m)%nat) as Hfull.
        { intros Hroom. assert (Component.reject m held f = None) as Hn
            by by apply reject_None_iff. congruence. }
        replace (Component.effectiveMaxFiles m - held)%nat with 0%nat by lia.
        done.
      * by rewrite filter_cons_False by done.
    + apply reject_None_iff in Hr as [H0 Hroom].
      rewrite filter_cons_True by done. rewrite fmap_cons, IH.
      replace (Component.effectiveMaxFiles m - held)%nat
        with (S (Component.effectiveMaxFiles m - S held)) by lia.
      done.
Qed.

(** X18: of any batch, [handleMultipleFiles] accepts the candidates that
    pass the size and type checks, in the order of the batch, until the
    room left by the collection of its closure is used up, and answers every
    other candidate by one message. *)
Theorem component_mixed_batch m env snap batch st :
  let st' := Component.handleMultipleFiles m env snap batch st in
  let room := (Component.effectiveMaxFiles m - length snap)%nat in
  map Component.file (Component.files st')
  = map Component.file (Component.files st)
    ++ take room (filter (fun f => Component.reject m 0 f = None) batch)
  /\ (length (Component.files st') + length (Component.errors st'))%nat
     = (length (Component.files st) + length batch)%nat.
Proof.
  intros st' room. unfold st'. rewrite handleMultipleFiles_eq. simpl.
  rewrite fmap_app, acceptances_mixed. split; [done|].
  rewrite length_app.
  pose proof (acceptances_rejections_length m env (length snap) 0 batch). lia.
Qed.

(** X19: of any batch whose valid candidates have previews that fulfil, the
    hook lists the records of the valid candidates in the order of the
    input, after the records it held when [multiple] is set, cut at
    [maxFiles]; candidates its validator rejects leave no gap in this
    order. *)
Theorem hook_mixed_batch fmt o env snap sel st recs :
  let valid := filter (fun f => passes fmt o f = true) sel in
  valid <> [] ->
  previewed env valid recs ->
  settlesAll env (length valid) ->
  let st' := (Hook.handleFiles fmt o env snap sel st).1 in
  Hook.files st'
  = take (Hook.maxFiles o) (if Hook.multiple o then snap ++ recs else recs)
  /\ map Hook.file recs = valid
  /\ valid `sublist_of` sel.
Proof.
  intros valid Hne Hprev Hall st'.
  destruct (handleFiles_previewed_result fmt o env snap sel st recs Hne Hprev Hall)
    as [Hf _].
  split; [done|]. split; [by eapply previewed_files | apply sublist_filter].
Qed.

Lemma hook_mixed_batch_witness :
  let o := Hook.mkOptions (Js.lit "image/*") true 10 1000 0 false false true in
  let batch := [Fixture.image "a.png" 10; Fixture.document "b.pdf" 20;
                Fixture.image "c.png" 5000; Fixture.image "d.png" 40] in
  map Hook.file
    (Hook.files (Hook.handleFiles Fixture.formatFileSize o (Fixture.hookEnv 2) []
                   batch Hook.initial).1)
  = [Fixture.image "a.png" 10; Fixture.image "d.png" 40].
Proof.
  intros o batch.
  destruct (hook_mixed_batch Fixture.formatFileSize o (Fixture.hookEnv 2) [] batch
              Hook.initial
              [Fixture.record 0 (Fixture.image "a.png" 10);
               Fixture.record 1 (Fixture.image "d.png" 40)]) as (H & _).
  - discriminate.
  - reflexivity.
  - apply (hookEnv_settles 2).
  - rewrite H. reflexivity.
Defined.

(** X20: the wildcard stands for every type only as the whole
    accepted-types string.  As the first entry of a longer list it matches
    the MIME types that start with an asterisk and no others, in the hook
    and in the component: a file of another type has to match one of the
    remaining entries. *)
Theorem wildcard_entry_in_a_list f rest :
  Js.startsWith (File.type f) (Js.lit "*") = false ->
  (forall o, Hook.accept o = Js.lit "*/*," ++ rest ->
     hookTypeOk o f = existsb (Hook.matchesType f) (map Js.trim (Js.split 44 rest)))
  /\ (forall m, Component.m_acceptedFileTypes m = Js.lit "*/*," ++ rest ->
        componentTypeOk m f
        = existsb (Component.matchesType f) (map Js.trim (Js.split 44 rest))).
Proof.
  intros Hstar.
  assert (Js.split 44 (Js.lit "*/*," ++ rest) = Js.lit "*/*" :: Js.split 44 rest)
    as Hsplit by done.
  assert (Js.eqb (Js.lit "*/*," ++ rest) (Js.lit "*/*") = false) as Hne.
  { destruct (Js.eqb _ _) eqn:H; [|done]. apply eqb_eq in H. done. }
  split.
  - intros o Ha. unfold hookTypeOk. rewrite Ha, Hne, Hsplit. simpl.
    unfold Hook.matchesType at 1.
    change (Js.trim (Js.lit "*/*")) with (Js.lit "*/*").
    change (Js.endsWith (Js.lit "*/*") (Js.lit "/*")) with true.
    change (Js.replaceFirst (Js.lit "/*") (Js.lit "*/*")) with (Js.lit "*").
    by rewrite Hstar.
  - intros m Ha. unfold componentTypeOk, Component.isAccepted.
    rewrite Ha, Hne, Hsplit. simpl.
    unfold Component.matchesType at 1.
    change (Js.trim (Js.lit "*/*")) with (Js.lit "*/*").
    change (Js.endsWith (Js.lit "*/*") (Js.lit "/*")) with true.
    change (Js.replaceFirst (Js.lit "/*") (Js.lit "*/*")) with (Js.lit "*").
    by rewrite Hstar.
Qed.

Lemma wildcard_entry_in_a_list_witness :
  let o := Hook.mkOptions (Js.lit "*/*,image/png") true 10 0 0 false false true in
  hookTypeOk o (Fixture.document "report.pdf" 100) = false.
Proof.
  intros o.
  rewrite (proj1 (wildcard_entry_in_a_list (Fixture.document "report.pdf" 100)
                    (Js.lit "image/png") eq_refl) o eq_refl).
  reflexivity.
Defined.

(* ================================================================== *)
(** ** The progress interval after a failed upload *)
(* ================================================================== *)

(** An upload that rejects before the tenth firing of its interval leaves
    the interval running: the [catch] block sets the progress to 0, and k
    further firings raise it to 10 k, capped at 90, with [isUploading]
    false. *)
Lemma progress_rises_after_failed_upload
  fmt o env snap sel st st1 interval n e k :
  Hook.handleFiles fmt o env snap sel st = (st1, Hook.AwaitingUpload interval) ->
  (n <= 9)%nat ->
  let st2 := Hook.run fmt o (ticks n interval) st1 in
  let st3 := (Hook.uploadRejected o e st2).1 in
  let st4 := Hook.run fmt o (ticks k interval) st3 in
  Hook.uploadProgress st3 = 0%nat
  /\ Hook.uploadProgress st4 = Nat.min (10 * k) 90
  /\ Hook.isUploading st4 = false.
Proof.
  intros H Hn st2 st3 st4.
  apply handleFiles_awaiting in H as (_ & _ & H0 & Hin & _).
  destruct (ticks_progress fmt o n interval st1 Hin H0) as (_ & Hlive & _).
  specialize (Hlive Hn). fold st2 in Hlive.
  assert (interval ∈ Hook.intervals st3) as Hin3.
  { unfold st3. simpl. by destruct (Hook.onError o). }
  assert (Hook.uploadProgress st3 = 0%nat) as H03.
  { unfold st3. simpl. by destruct (Hook.onError o). }
  assert (Hook.isUploading st3 = false) as Hu3.
  { unfold st3. simpl. by destruct (Hook.onError o). }
  destruct (ticks_progress fmt o k interval st3 Hin3 H03) as (Hp & _).
  destruct (ticks_fields fmt o k interval st3) as (_ & Hu & _).
  fold (ticks k interval) in Hu. fold st4 in Hp, Hu.
  split; [done|]. split; [done|]. by rewrite Hu.
Qed.

(** C8, the code at a failing input: an upload of one image rejects after
    three firings of the progress interval.  The [catch] block sets the
    progress to 0 and [isUploading] to false, hands the message to [onError]
    and keeps the file listed, but it does not clear the interval, which the
    success path does: the interval is still live, and its next nine firings
    bring the progress to 90, where it stays, with [isUploading] false. *)
Theorem failed_upload_leaves_interval_running :
  let o := Hook.mkOptions (Js.lit "image/*") true 10 1000 0 false true true in
  let st1 := (Hook.handleFiles Fixture.formatFileSize o (Fixture.hookEnv 1) []
                [Fixture.image "a.png" 10] Hook.initial).1 in
  let st2 := Hook.run Fixture.formatFileSize o (ticks 3 0) st1 in
  let st3 := (Hook.uploadRejected o (ErrorObject (Js.lit "503")) st2).1 in
  let later := fun k => Hook.run Fixture.formatFileSize o (ticks k 0) st3 in
  (Hook.uploadProgress st3 = 0%nat
   /\ Hook.isUploading st3 = false
   /\ map Hook.file (Hook.files st3) = [Fixture.image "a.png" 10]
   /\ errorCalls (Hook.calls st3) = [Js.lit "503"])
  /\ Hook.intervals st3 = [0%nat]
  /\ Hook.intervals (Hook.uploadResolved 0 st2).1 = []
  /\ Hook.uploadProgress (later 1%nat) = 10%nat
  /\ Hook.uploadProgress (later 9%nat) = 90%nat
  /\ Hook.uploadProgress (later 30%nat) = 90%nat
  /\ Hook.isUploading (later 30%nat) = false.
Proof. repeat split; reflexivity. Qed.
